(** * Yamaha MusicCast client (yamaha-musiccast.js): model and properties

    The development follows the source file from top to bottom:

    - JavaScript values, Error objects and promise settlement;
    - the six subsystem clients ([YamahaMusicCastSystem] ... [YamahaMusicCastClock]):
      their [setup], one constructor of [operation] per endpoint method, and
      the response-envelope decoding every method body repeats;
    - the platform the facade runs on: [dgram] sockets, the [EventEmitter]
      the facade is declared to extend, [JSON.parse];
    - the facade [YamahaMusicCast]: [setupEventReceiver], [setup], the
      accessors, its constructor and the evaluation of the module;
    - the properties.

    Numbers are written [VNum m e] for the decimal m * 10^e; the rounding of
    IEEE doubles is represented only where the program compares a number
    ([exceeds_32]).  Strings are [string]; the length of a string is its
    number of code units. *)

From Stdlib Require Import ZArith String Ascii List Lia.
From stdpp Require Import base option list strings.

Local Open Scope Z_scope.
Local Open Scope string_scope.

#[local] Set Warnings "-register-all".

(** ** JavaScript values *)

(** An [Error] object: its [name] ("Error", "TypeError", "ReferenceError",
    "SyntaxError", "AxiosError"), its [code] when the platform sets one, and
    its [message]. *)
Record js_error : Type := mk_error {
  err_name : string;
  err_code : string;
  err_message : string
}.

Inductive value : Type :=
  | VUndefined
  | VNull
  | VBool (b : bool)
  | VNum (m e : Z)
  | VStr (s : string)
  | VArr (elems : list value)
  | VObj (fields : list (string * value))
  | VError (err : js_error).

Definition Error (message : string) : js_error :=
  mk_error "Error" EmptyString message.

Definition TypeError (message : string) : js_error :=
  mk_error "TypeError" EmptyString message.

Definition ReferenceError (message : string) : js_error :=
  mk_error "ReferenceError" EmptyString message.

(** [lookup_field k fs]: the own property [k] of an object literal. *)
Fixpoint lookup_field (k : string) (fs : list (string * value)) : option value :=
  match fs with
  | [] => None
  | (k', v) :: fs' => if String.eqb k k' then Some v else lookup_field k fs'
  end.

(** [get_prop v k] is the member access [v.k] for the keys this program
    reads ([response_code] and the result fields): an object yields its own
    property or [undefined]; [null] and [undefined] raise a TypeError; the
    other values have no such property.  The keys are not names of built-in
    properties of strings, arrays, numbers, booleans or Error objects. *)
Definition get_prop (v : value) (k : string) : value + js_error :=
  match v with
  | VUndefined =>
      inr (TypeError ("Cannot read properties of undefined (reading '" +:+ k +:+ "')"))
  | VNull =>
      inr (TypeError ("Cannot read properties of null (reading '" +:+ k +:+ "')"))
  | VObj fs => inl (match lookup_field k fs with Some x => x | None => VUndefined end)
  | _ => inl VUndefined
  end.

(** [v === 0] *)
Definition strict_eq_zero (v : value) : bool :=
  match v with
  | VNum m _ => (m =? 0)%Z
  | _ => false
  end.

(** A formal parameter with a default: the default replaces [undefined]. *)
Definition default_param (arg dflt : value) : value :=
  match arg with
  | VUndefined => dflt
  | _ => arg
  end.

(** *** Reading [length] and comparing with a number

    What [name.length > 32] needs: the member access, and the comparison,
    which turns its left operand into a number first. *)

(** The result of [ToNumber]. *)
Inductive number : Type :=
  | NaN
  | Finite (m e : Z)
  | PosInf
  | NegInf.

Definition negate (n : number) : number :=
  match n with
  | Finite m e => Finite (- m)%Z e
  | PosInf => NegInf
  | NegInf => PosInf
  | NaN => NaN
  end.

(** White space and line terminators among the code units below 256. *)
Definition is_js_space (c : ascii) : bool :=
  match nat_of_ascii c with
  | 9%nat | 10%nat | 11%nat | 12%nat | 13%nat | 32%nat | 160%nat => true
  | _ => false
  end.

Fixpoint trim_left (l : list ascii) : list ascii :=
  match l with
  | c :: r => if is_js_space c then trim_left r else l
  | [] => []
  end.

Definition trim (l : list ascii) : list ascii :=
  rev (trim_left (rev (trim_left l))).

(** The value of a digit in a base up to 16, if it is one. *)
Definition digit_in (base : Z) (c : ascii) : option Z :=
  let n := Z.of_nat (nat_of_ascii c) in
  let d :=
    if ((48 <=? n) && (n <=? 57))%Z then (n - 48)%Z
    else if ((97 <=? n) && (n <=? 102))%Z then (n - 87)%Z
    else if ((65 <=? n) && (n <=? 70))%Z then (n - 55)%Z
    else 16%Z in
  if (d <? base)%Z then Some d else None.

(** Digits at the head of [l]: their value after [acc], how many, the rest. *)
Fixpoint scan (base : Z) (l : list ascii) (acc : Z) (n : nat)
    : Z * nat * list ascii :=
  match l with
  | c :: r =>
      match digit_in base c with
      | Some d => scan base r (acc * base + d)%Z (S n)
      | None => (acc, n, l)
      end
  | [] => (acc, n, [])
  end.

(** [0x...], [0o...], [0b...] after the prefix. *)
Definition radix_literal (base : Z) (l : list ascii) : number :=
  let '(v, n, rest) := scan base l 0%Z 0%nat in
  match n, rest with
  | S _, [] => Finite v 0
  | _, _ => NaN
  end.

(** An unsigned decimal literal: [Infinity], or digits with an optional
    fraction and exponent, at least one digit before the exponent. *)
Definition decimal_literal (l : list ascii) : number :=
  if String.eqb (string_of_list_ascii l) "Infinity" then PosInf else
  let '(i, ni, r1) := scan 10 l 0%Z 0%nat in
  let '(m, nf, r2) :=
    match r1 with
    | "."%char :: r => scan 10 r i 0%nat
    | _ => (i, 0%nat, r1)
    end in
  match (ni + nf)%nat, r2 with
  | O, _ => NaN
  | _, [] => Finite m (- Z.of_nat nf)
  | _, ("e" | "E")%char :: r =>
      let '(sign, r') :=
        match r with
        | "+"%char :: r' => (1%Z, r')
        | "-"%char :: r' => ((-1)%Z, r')
        | _ => (1%Z, r)
        end in
      let '(x, nx, r3) := scan 10 r' 0%Z 0%nat in
      match nx, r3 with
      | S _, [] => Finite m (sign * x - Z.of_nat nf)
      | _, _ => NaN
      end
  | _, _ => NaN
  end.

(** [ToNumber] of a string: white space around a numeric literal; the
    empty string is 0, anything else is NaN. *)
Definition string_to_number (s : string) : number :=
  match trim (list_ascii_of_string s) with
  | [] => Finite 0 0
  | "0"%char :: ("x" | "X")%char :: r => radix_literal 16 r
  | "0"%char :: ("o" | "O")%char :: r => radix_literal 8 r
  | "0"%char :: ("b" | "B")%char :: r => radix_literal 2 r
  | "+"%char :: r => decimal_literal r
  | "-"%char :: r => negate (decimal_literal r)
  | l => decimal_literal l
  end.

(** [Error.prototype.toString]. *)
Definition error_to_string (err : js_error) : string :=
  if String.eqb (err_name err) EmptyString then err_message err
  else if String.eqb (err_message err) EmptyString then err_name err
  else err_name err +:+ ": " +:+ err_message err.

(** Whether turning [v] into a primitive throws.  A plain object inherits
    [valueOf], which returns the object itself, and [toString]; an own
    property [toString] hides the inherited method and, being data, cannot be
    called, so no primitive is reached.  An array goes through [join], which
    turns every element into a string. *)
Fixpoint no_primitive (v : value) : bool :=
  match v with
  | VObj fs =>
      match lookup_field "toString" fs with
      | Some _ => true
      | None => false
      end
  | VArr elems => existsb no_primitive elems
  | _ => false
  end.

(** [ToNumber] where a primitive is reached.  An object goes through its
    string: an array through the join of its elements (no element: the empty
    string; one element: the string of that element, empty for [undefined]
    and [null]; more: a text with a comma), a plain object through
    "[object Object]", an Error through its [toString]. *)
Fixpoint number_of (v : value) : number :=
  match v with
  | VUndefined => NaN
  | VNull => Finite 0 0
  | VBool b => Finite (if b then 1 else 0) 0
  | VNum m e => Finite m e
  | VStr s => string_to_number s
  | VArr [] => Finite 0 0
  | VArr [x] =>
      match x with
      | VUndefined | VNull => Finite 0 0
      | VBool _ => NaN
      | VNum m e => Finite m e
      | VStr s => string_to_number s
      | VArr _ => number_of x
      | VObj _ => NaN
      | VError err => string_to_number (error_to_string err)
      end
  | VArr _ => NaN
  | VObj _ => NaN
  | VError err => string_to_number (error_to_string err)
  end.

(** [ToNumber]. *)
Definition to_number (v : value) : number + js_error :=
  if no_primitive v
  then inr (TypeError "Cannot convert object to primitive value")
  else inl (number_of v).

(** [n > 32] for a number.  [Finite m e] stands for the double nearest to
    [m * 10^e], ties to the even mantissa.  The double after 32 is
    [32 + 2^-47] and 32 is the even one of the two, so the nearest double
    exceeds 32 exactly when [m * 10^e] exceeds [32 + 2^-48]. *)
Definition exceeds_32 (n : number) : bool :=
  match n with
  | Finite m e =>
      if (0 <=? e)%Z
      then (32 * 2 ^ 48 + 1 <? 2 ^ 48 * (m * 10 ^ e))%Z
      else ((32 * 2 ^ 48 + 1) * 10 ^ (- e) <? 2 ^ 48 * m)%Z
  | PosInf => true
  | NaN | NegInf => false
  end.

(** [v.length]: the number of code units of a string, the number of
    elements of an array, the own property of a plain object; a TypeError on
    [undefined] and [null]; [undefined] on the other values. *)
Definition get_length (v : value) : value + js_error :=
  match v with
  | VStr s => inl (VNum (Z.of_nat (String.length s)) 0)
  | VArr elems => inl (VNum (Z.of_nat (length elems)) 0)
  | _ => get_prop v "length"
  end.

(** [name.length > 32]: its value, or the exception of the member access. *)
Definition length_exceeds_32 (name : value) : bool + js_error :=
  match get_length name with
  | inl len =>
      match to_number len with
      | inl n => inl (exceeds_32 n)
      | inr exn => inr exn
      end
  | inr exn => inr exn
  end.

(** How a promise returned by an endpoint method settles. *)
Inductive settlement : Type :=
  | Resolved (v : value)
  | Rejected (v : value).

(** ** The subsystem clients *)

Inductive client_kind : Type :=
  | System | Zone | Tuner | NetworkUSB | CD | Clock.

Record axios_instance : Type := mk_axios {
  baseURL : string;
  timeout : Z;
  headers : list (string * value)
}.

(** The private fields [#ip], [#eventPort], [#axiosInstance] of a client;
    [None] is [undefined]. *)
Record client : Type := mk_client {
  c_ip : option string;
  c_eventPort : option Z;
  c_axiosInstance : axios_instance
}.

(** [${ip}] in a template literal, for a string or [undefined]. *)
Definition template (ip : option string) : string :=
  match ip with
  | Some s => s
  | None => "undefined"
  end.

(** A port as a JavaScript value. *)
Definition port_value (port : option Z) : value :=
  match port with
  | Some p => VNum p 0
  | None => VUndefined
  end.

(** The path each class puts after [/YamahaExtendedControl/v1] in its [setup]. *)
Definition subsystem_suffix (k : client_kind) : string :=
  match k with
  | System => "/system"
  | Zone => EmptyString
  | Tuner => "/tuner"
  | NetworkUSB => "/netusb"
  | CD => "/cd"
  | Clock => "/clock"
  end.

(** [setup(ip, eventPort)] of the class of kind [k], run by its constructor. *)
Definition client_setup (k : client_kind) (ip : option string) (eventPort : option Z)
    : client :=
  {| c_ip := ip;
     c_eventPort := eventPort;
     c_axiosInstance :=
       {| baseURL := "http://" +:+ template ip +:+ ":80/YamahaExtendedControl/v1"
                       +:+ subsystem_suffix k;
          timeout := (15 * 1000)%Z;
          headers := [("X-AppName", VStr "ERDesigns/1.0");
                      ("X-AppPort", port_value eventPort)] |} |}.

Inductive verb : Type := GET | POST.

(** What goes with the path: nothing, [{ params: {...} }] of a GET, or the
    data of a POST. *)
Inductive payload : Type :=
  | NoPayload
  | QueryParams (params : list (string * value))
  | JsonBody (body : value).

Record request : Type := mk_request {
  req_instance : axios_instance;
  req_verb : verb;
  req_path : string;
  req_payload : payload
}.

(** The two ways the promise of [axios.get] / [axios.post] settles: fulfilled
    with a response whose [data] is the decoded body, or rejected with an
    error object (timeout, refused connection, failed lookup, ...). *)
Inductive http_outcome : Type :=
  | HttpFulfilled (data : value)
  | HttpRejected (error : js_error).

(** What [resolve] is given on success: [res] or [res.<field>]. *)
Inductive result_shape : Type :=
  | WholeBody
  | Field (key : string).

(** *** The endpoint methods

    One constructor per method of the six classes, in source order, with the
    method's formal parameters.  A zone identifier is a string; the other
    arguments are any value. *)
Inductive operation : Type :=
  | System_getDeviceInfo
  | System_getFeatures
  | System_getNetworkStatus
  | System_setWiredLan (options : value)
  | System_setWirelessLan (options : value)
  | System_setIPSettings (options : value)
  | System_setNetworkName (name : value)
  | System_setAirPlayPin (pin : value)
  | System_getMacAddressFilter
  | System_setMacAddressFilter (options : value)
  | System_getNetworkStandby
  | System_setNetworkStandby (standby : value)
  | System_getBluetoothInfo
  | System_setBluetoothStandby (standby : value)
  | System_setBluetoothTxSetting (enable : value)
  | System_getBluetoothDeviceList
  | System_updateBluetoothDeviceList
  | System_connectBluetoothDevice (address : value)
  | System_disconnectBluetoothDevice
  | System_getFuncStatus
  | System_setAutoPowerStandby (enable : value)
  | System_setIrSensor (enable : value)
  | System_setSpeakerA (enable : value)
  | System_setSpeakerB (enable : value)
  | System_setDimmer (enable : value)
  | System_setZoneBVolumeSync (enable : value)
  | System_setHdmiOut1 (enable : value)
  | System_setHdmiOut2 (enable : value)
  | System_getNameText (id : value)
  | System_setNameText (id : value) (text : value)
  | System_getLocationInfo
  | System_sendIrCode (code : value)
  | Zone_getStatus (zone : string)
  | Zone_getSoundProgramList (zone : string)
  | Zone_setPower (zone : string) (power : value)
  | Zone_setSleep (zone : string) (sleep : value)
  | Zone_setVolume (zone : string) (volume : value) (step : value)
  | Zone_setMute (zone : string) (enable : value)
  | Zone_setInput (zone : string) (input : value) (mode : value)
  | Zone_setSoundProgram (zone : string) (program : value)
  | Zone_set3dSurround (zone : string) (enable : value)
  | Zone_setDirect (zone : string) (enable : value)
  | Zone_setPureDirect (zone : string) (enable : value)
  | Zone_setEnhancer (zone : string) (enable : value)
  | Zone_setToneControl (zone : string) (mode : value) (bass : value) (treble : value)
  | Zone_setEqualizer (zone : string) (mode : value) (low : value) (mid : value) (high : value)
  | Zone_setBalance (zone : string) (value_ : value)
  | Zone_setDialogueLevel (zone : string) (value_ : value)
  | Zone_setDialogueLift (zone : string) (value_ : value)
  | Zone_setClearVoice (zone : string) (enable : value)
  | Zone_setSubwooferVolume (zone : string) (volume : value)
  | Zone_setBassExtension (zone : string) (enable : value)
  | Zone_getSignalInfo (zone : string)
  | Zone_prepareInputChange (zone : string) (input : value)
  | Tuner_getPresetInfo (band : value)
  | Tuner_getPlayInfo
  | Tuner_setBand (band : value)
  | Tuner_setFreq (band : value) (tuning : value) (num : value)
  | Tuner_recallPreset (zone : value) (band : value) (num : value)
  | Tuner_switchPreset (dir : value)
  | Tuner_storePreset (num : value)
  | Tuner_clearPreset (band : value) (num : value)
  | Tuner_startAutoPreset (band : value)
  | Tuner_cancelAutoPreset (band : value)
  | Tuner_movePreset (band : value) (from : value) (to : value)
  | Tuner_startDabInitialScan
  | Tuner_cancelDabInitialScan
  | Tuner_setDabTuneAid (action : value)
  | Tuner_setDabService (dir : value)
  | NetworkUSB_getPresetInfo
  | NetworkUSB_getPlayInfo
  | NetworkUSB_setPlayback (playback : value)
  | NetworkUSB_setPlayPosition (position : value)
  | NetworkUSB_toggleRepeat
  | NetworkUSB_toggleShuffle
  | NetworkUSB_getListInfo (list_id : value) (input : value) (index : value) (size : value)
      (lang : value)
  | NetworkUSB_setListControl (list_id : value) (type : value) (index : value) (zone : value)
  | NetworkUSB_setSearchString (list_id : value) (string_ : value) (index : value)
  | NetworkUSB_recallPreset (zone : value) (num : value)
  | NetworkUSB_storePreset (num : value)
  | NetworkUSB_clearPreset (num : value)
  | NetworkUSB_movePreset (from : value) (to : value)
  | NetworkUSB_getSettings
  | NetworkUSB_setQuality (input : value) (value_ : value)
  | NetworkUSB_getRecentInfo
  | NetworkUSB_recallRecentItem (zone : value) (num : value)
  | NetworkUSB_clearRecentInfo
  | NetworkUSB_managePlay (type : value) (timeout : value)
  | NetworkUSB_manageList (list_id : value) (type : value) (index : value) (zone : value)
      (timeout : value)
  | NetworkUSB_getPlayDescription (type : value) (timeout : value)
  | NetworkUSB_setListSortOption (input : value) (type : value)
  | NetworkUSB_getAccountStatus
  | NetworkUSB_switchAccount (input : value) (index : value) (timeout : value)
  | NetworkUSB_getServiceInfo (input : value) (type : value) (timeout : value)
  | CD_getPlayInfo
  | CD_setPlayback (playback : value) (num : value)
  | CD_toggleTray
  | CD_toggleRepeat
  | CD_toggleShuffle
  | Clock_getSettings
  | Clock_setAutoSync (enable : value)
  | Clock_setDateAndTime (date_time : value)
  | Clock_setClockFormat (format : value)
  | Clock_setAlarmSettings (alarm_on : value) (volume : value) (fade_interval : value)
      (fade_type : value) (mode : value) (repeat : value) (detail : value).

(** The class a method belongs to. *)
Definition op_client (op : operation) : client_kind :=
  match op with
  | System_getDeviceInfo
  | System_getFeatures
  | System_getNetworkStatus
  | System_setWiredLan _
  | System_setWirelessLan _
  | System_setIPSettings _
  | System_setNetworkName _
  | System_setAirPlayPin _
  | System_getMacAddressFilter
  | System_setMacAddressFilter _
  | System_getNetworkStandby
  | System_setNetworkStandby _
  | System_getBluetoothInfo
  | System_setBluetoothStandby _
  | System_setBluetoothTxSetting _
  | System_getBluetoothDeviceList
  | System_updateBluetoothDeviceList
  | System_connectBluetoothDevice _
  | System_disconnectBluetoothDevice
  | System_getFuncStatus
  | System_setAutoPowerStandby _
  | System_setIrSensor _
  | System_setSpeakerA _
  | System_setSpeakerB _
  | System_setDimmer _
  | System_setZoneBVolumeSync _
  | System_setHdmiOut1 _
  | System_setHdmiOut2 _
  | System_getNameText _
  | System_setNameText _ _
  | System_getLocationInfo
  | System_sendIrCode _ => System
  | Zone_getStatus _
  | Zone_getSoundProgramList _
  | Zone_setPower _ _
  | Zone_setSleep _ _
  | Zone_setVolume _ _ _
  | Zone_setMute _ _
  | Zone_setInput _ _ _
  | Zone_setSoundProgram _ _
  | Zone_set3dSurround _ _
  | Zone_setDirect _ _
  | Zone_setPureDirect _ _
  | Zone_setEnhancer _ _
  | Zone_setToneControl _ _ _ _
  | Zone_setEqualizer _ _ _ _ _
  | Zone_setBalance _ _
  | Zone_setDialogueLevel _ _
  | Zone_setDialogueLift _ _
  | Zone_setClearVoice _ _
  | Zone_setSubwooferVolume _ _
  | Zone_setBassExtension _ _
  | Zone_getSignalInfo _
  | Zone_prepareInputChange _ _ => Zone
  | Tuner_getPresetInfo _
  | Tuner_getPlayInfo
  | Tuner_setBand _
  | Tuner_setFreq _ _ _
  | Tuner_recallPreset _ _ _
  | Tuner_switchPreset _
  | Tuner_storePreset _
  | Tuner_clearPreset _ _
  | Tuner_startAutoPreset _
  | Tuner_cancelAutoPreset _
  | Tuner_movePreset _ _ _
  | Tuner_startDabInitialScan
  | Tuner_cancelDabInitialScan
  | Tuner_setDabTuneAid _
  | Tuner_setDabService _ => Tuner
  | NetworkUSB_getPresetInfo
  | NetworkUSB_getPlayInfo
  | NetworkUSB_setPlayback _
  | NetworkUSB_setPlayPosition _
  | NetworkUSB_toggleRepeat
  | NetworkUSB_toggleShuffle
  | NetworkUSB_getListInfo _ _ _ _ _
  | NetworkUSB_setListControl _ _ _ _
  | NetworkUSB_setSearchString _ _ _
  | NetworkUSB_recallPreset _ _
  | NetworkUSB_storePreset _
  | NetworkUSB_clearPreset _
  | NetworkUSB_movePreset _ _
  | NetworkUSB_getSettings
  | NetworkUSB_setQuality _ _
  | NetworkUSB_getRecentInfo
  | NetworkUSB_recallRecentItem _ _
  | NetworkUSB_clearRecentInfo
  | NetworkUSB_managePlay _ _
  | NetworkUSB_manageList _ _ _ _ _
  | NetworkUSB_getPlayDescription _ _
  | NetworkUSB_setListSortOption _ _
  | NetworkUSB_getAccountStatus
  | NetworkUSB_switchAccount _ _ _
  | NetworkUSB_getServiceInfo _ _ _ => NetworkUSB
  | CD_getPlayInfo
  | CD_setPlayback _ _
  | CD_toggleTray
  | CD_toggleRepeat
  | CD_toggleShuffle => CD
  | Clock_getSettings
  | Clock_setAutoSync _
  | Clock_setDateAndTime _
  | Clock_setClockFormat _
  | Clock_setAlarmSettings _ _ _ _ _ _ _ => Clock
  end.

(** The default of [options] in [setWiredLan]. *)
Definition setWiredLan_default_options : value :=
  VObj [("dhcp", VBool false);
        ("ipAddress", VStr EmptyString);
        ("subnetMask", VStr EmptyString);
        ("defaultGateway", VStr EmptyString);
        ("dnsServer1", VStr EmptyString);
        ("dnsServer2", VStr EmptyString)].

(** The default of [options] in [setWirelessLan]. *)
Definition setWirelessLan_default_options : value :=
  VObj [("ssid", VStr EmptyString);
        ("type", VStr "mixed_mode");
        ("key", VStr EmptyString);
        ("dhcp", VStr EmptyString);
        ("ipAddress", VStr EmptyString);
        ("subnetMask", VStr EmptyString);
        ("defaultGateway", VStr EmptyString);
        ("dnsServer1", VStr EmptyString);
        ("dnsServer2", VStr EmptyString)].

(** The default of [options] in [setIPSettings]. *)
Definition setIPSettings_default_options : value :=
  VObj [("dhcp", VStr EmptyString);
        ("ipAddress", VStr EmptyString);
        ("subnetMask", VStr EmptyString);
        ("defaultGateway", VStr EmptyString);
        ("dnsServer1", VStr EmptyString);
        ("dnsServer2", VStr EmptyString)].

(** The default of [options] in [setMacAddressFilter]. *)
Definition setMacAddressFilter_default_options : value :=
  VObj [("filter", VBool false);
        ("address_1", VStr EmptyString);
        ("address_2", VStr EmptyString);
        ("address_3", VStr EmptyString);
        ("address_4", VStr EmptyString);
        ("address_5", VStr EmptyString);
        ("address_6", VStr EmptyString);
        ("address_7", VStr EmptyString);
        ("address_8", VStr EmptyString);
        ("address_9", VStr EmptyString);
        ("address_10", VStr EmptyString)].

(** The default of [detail] in [setAlarmSettings]. *)
Definition setAlarmSettings_default_detail : value :=
  VObj [("day", VStr "oneday");
        ("enable", VBool false);
        ("time", VStr "0000");
        ("beep", VBool false);
        ("playback_type", VStr "resume");
        ("resume", VObj [("input", VStr "none")]);
        ("preset", VObj [("type", VStr "none"); ("num", VNum 1 0)])].

(** The call each method makes on its axios instance: [.get(path)],
    [.get(path, { params })] or [.post(path, data)]. *)
Definition op_request (op : operation) : verb * string * payload :=
  match op with
  | System_getDeviceInfo => (GET, "/getDeviceInfo", NoPayload)
  | System_getFeatures => (GET, "/getFeatures", NoPayload)
  | System_getNetworkStatus => (GET, "/getNetworkStatus", NoPayload)
  | System_setWiredLan options =>
      (POST, "/setWiredLan",
       JsonBody (default_param options setWiredLan_default_options))
  | System_setWirelessLan options =>
      (POST, "/setWirelessLan",
       JsonBody (default_param options setWirelessLan_default_options))
  | System_setIPSettings options =>
      (POST, "/setIpSettings",
       JsonBody (default_param options setIPSettings_default_options))
  | System_setNetworkName name =>
      (POST, "/setNetworkName",
       JsonBody (VObj [("name", name)]))
  | System_setAirPlayPin pin =>
      (POST, "/setAirPlayPin",
       JsonBody (VObj [("pin", pin)]))
  | System_getMacAddressFilter => (GET, "/getMacAddressFilter", NoPayload)
  | System_setMacAddressFilter options =>
      (POST, "/setMacAddressFilter",
       JsonBody (default_param options setMacAddressFilter_default_options))
  | System_getNetworkStandby => (GET, "/getNetworkStandby", NoPayload)
  | System_setNetworkStandby standby =>
      (GET, "/setNetworkStandby",
       QueryParams [("standby", default_param standby (VStr "auto"))])
  | System_getBluetoothInfo => (GET, "/getBluetoothInfo", NoPayload)
  | System_setBluetoothStandby standby =>
      (GET, "/setBluetoothStandby",
       QueryParams [("standby", default_param standby (VBool true))])
  | System_setBluetoothTxSetting enable =>
      (GET, "/setBluetoothTxSetting",
       QueryParams [("enable", default_param enable (VBool true))])
  | System_getBluetoothDeviceList => (GET, "/getBluetoothDeviceList", NoPayload)
  | System_updateBluetoothDeviceList => (GET, "/updateBluetoothDeviceList", NoPayload)
  | System_connectBluetoothDevice address =>
      (GET, "/connectBluetoothDevice",
       QueryParams [("address", default_param address (VStr EmptyString))])
  | System_disconnectBluetoothDevice => (GET, "/disconnectBluetoothDevice", NoPayload)
  | System_getFuncStatus => (GET, "/getFuncStatus", NoPayload)
  | System_setAutoPowerStandby enable =>
      (GET, "/setAutoPowerStandby",
       QueryParams [("enable", default_param enable (VBool true))])
  | System_setIrSensor enable =>
      (GET, "/setIrSensor",
       QueryParams [("enable", default_param enable (VBool true))])
  | System_setSpeakerA enable =>
      (GET, "/setSpeakerA",
       QueryParams [("enable", default_param enable (VBool true))])
  | System_setSpeakerB enable =>
      (GET, "/setSpeakerB",
       QueryParams [("enable", default_param enable (VBool true))])
  | System_setDimmer enable =>
      (GET, "/setDimmer",
       QueryParams [("enable", default_param enable (VBool true))])
  | System_setZoneBVolumeSync enable =>
      (GET, "/setZoneBVolumeSync",
       QueryParams [("enable", default_param enable (VBool true))])
  | System_setHdmiOut1 enable =>
      (GET, "/setHdmiOut1",
       QueryParams [("enable", default_param enable (VBool true))])
  | System_setHdmiOut2 enable =>
      (GET, "/setHdmiOut2",
       QueryParams [("enable", default_param enable (VBool true))])
  | System_getNameText id =>
      (GET, "/getNameText",
       QueryParams [("id", default_param id (VStr EmptyString))])
  | System_setNameText id text =>
      (POST, "/setNameText",
       JsonBody (VObj [("id", id); ("text", text)]))
  | System_getLocationInfo => (GET, "/getLocationInfo", NoPayload)
  | System_sendIrCode code =>
      (GET, "/sendIrCode",
       QueryParams [("code", code)])
  | Zone_getStatus zone => (GET, zone +:+ "/getStatus", NoPayload)
  | Zone_getSoundProgramList zone => (GET, zone +:+ "/getSoundProgramList", NoPayload)
  | Zone_setPower zone power =>
      (GET, zone +:+ "/setPower",
       QueryParams [("power", default_param power (VStr "on"))])
  | Zone_setSleep zone sleep =>
      (GET, zone +:+ "/setSleep",
       QueryParams [("sleep", default_param sleep (VNum 0 0))])
  | Zone_setVolume zone volume step =>
      (GET, zone +:+ "/setVolume",
       QueryParams [("volume", volume); ("step", default_param step (VNum 1 0))])
  | Zone_setMute zone enable =>
      (GET, zone +:+ "/setMute",
       QueryParams [("enable", default_param enable (VBool true))])
  | Zone_setInput zone input mode =>
      (GET, zone +:+ "/setInput",
       QueryParams [("input", input);
          ("mode", default_param mode (VStr "autoplay_disabled"))])
  | Zone_setSoundProgram zone program =>
      (GET, zone +:+ "/setSoundProgram",
       QueryParams [("program", program)])
  | Zone_set3dSurround zone enable =>
      (GET, zone +:+ "/set3dSurround",
       QueryParams [("enable", default_param enable (VBool false))])
  | Zone_setDirect zone enable =>
      (GET, zone +:+ "/setDirect",
       QueryParams [("enable", default_param enable (VBool false))])
  | Zone_setPureDirect zone enable =>
      (GET, zone +:+ "/setPureDirect",
       QueryParams [("enable", default_param enable (VBool false))])
  | Zone_setEnhancer zone enable =>
      (GET, zone +:+ "/setEnhancer",
       QueryParams [("enable", default_param enable (VBool true))])
  | Zone_setToneControl zone mode bass treble =>
      (GET, zone +:+ "/setToneControl",
       QueryParams [("mode", mode); ("bass", bass); ("treble", treble)])
  | Zone_setEqualizer zone mode low mid high =>
      (GET, zone +:+ "/setEqualizer",
       QueryParams [("mode", mode); ("low", low); ("mid", mid); ("high", high)])
  | Zone_setBalance zone value_ =>
      (GET, zone +:+ "/setBalance",
       QueryParams [("value", value_)])
  | Zone_setDialogueLevel zone value_ =>
      (GET, zone +:+ "/setDialogueLevel",
       QueryParams [("value", value_)])
  | Zone_setDialogueLift zone value_ =>
      (GET, zone +:+ "/setDialogueLift",
       QueryParams [("value", value_)])
  | Zone_setClearVoice zone enable =>
      (GET, zone +:+ "/setClearVoice",
       QueryParams [("enable", enable)])
  | Zone_setSubwooferVolume zone volume =>
      (GET, zone +:+ "/setSubwooferVolume",
       QueryParams [("volume", volume)])
  | Zone_setBassExtension zone enable =>
      (GET, zone +:+ "/setBassExtension",
       QueryParams [("enable", enable)])
  | Zone_getSignalInfo zone => (GET, zone +:+ "/getSignalInfo", NoPayload)
  | Zone_prepareInputChange zone input =>
      (GET, zone +:+ "/prepareInputChange",
       QueryParams [("input", input)])
  | Tuner_getPresetInfo band =>
      (GET, "/getPresetInfo",
       QueryParams [("band", default_param band (VStr "fm"))])
  | Tuner_getPlayInfo => (GET, "/getPlayInfo", NoPayload)
  | Tuner_setBand band =>
      (GET, "/setBand",
       QueryParams [("band", default_param band (VStr "fm"))])
  | Tuner_setFreq band tuning num =>
      (GET, "/setFreq",
       QueryParams [("band", band); ("tuning", tuning); ("num", num)])
  | Tuner_recallPreset zone band num =>
      (GET, "/recallPreset",
       QueryParams [("zone", zone); ("band", band); ("num", num)])
  | Tuner_switchPreset dir =>
      (GET, "/switchPreset",
       QueryParams [("dir", dir)])
  | Tuner_storePreset num =>
      (GET, "/storePreset",
       QueryParams [("num", num)])
  | Tuner_clearPreset band num =>
      (GET, "/clearPreset",
       QueryParams [("band", band); ("num", num)])
  | Tuner_startAutoPreset band =>
      (GET, "/startAutoPreset",
       QueryParams [("band", band)])
  | Tuner_cancelAutoPreset band =>
      (GET, "/cancelAutoPreset",
       QueryParams [("band", default_param band (VStr "fm"))])
  | Tuner_movePreset band from to =>
      (GET, "/movePreset",
       QueryParams [("band", band); ("from", from); ("to", to)])
  | Tuner_startDabInitialScan => (GET, "/startDabInitialScan", NoPayload)
  | Tuner_cancelDabInitialScan => (GET, "/cancelDabInitialScan", NoPayload)
  | Tuner_setDabTuneAid action =>
      (GET, "/setDabTuneAid",
       QueryParams [("action", action)])
  | Tuner_setDabService dir =>
      (GET, "/setDabService",
       QueryParams [("dir", default_param dir (VStr "up"))])
  | NetworkUSB_getPresetInfo => (GET, "/getPresetInfo", NoPayload)
  | NetworkUSB_getPlayInfo => (GET, "/getPlayInfo", NoPayload)
  | NetworkUSB_setPlayback playback =>
      (GET, "/setPlayback",
       QueryParams [("playback", playback)])
  | NetworkUSB_setPlayPosition position =>
      (GET, "/setPlayPosition",
       QueryParams [("position", position)])
  | NetworkUSB_toggleRepeat => (GET, "/toggleRepeat", NoPayload)
  | NetworkUSB_toggleShuffle => (GET, "/toggleShuffle", NoPayload)
  | NetworkUSB_getListInfo list_id input index size lang =>
      (GET, "/getListInfo",
       QueryParams [("list_id", list_id);
          ("input", input);
          ("index", index);
          ("size", size);
          ("lang", lang)])
  | NetworkUSB_setListControl list_id type index zone =>
      (GET, "/setListControl",
       QueryParams [("list_id", list_id);
          ("type", type);
          ("index", index);
          ("zone", zone)])
  | NetworkUSB_setSearchString list_id string_ index =>
      (GET, "/setSearchString",
       QueryParams [("list_id", list_id); ("string", string_); ("index", index)])
  | NetworkUSB_recallPreset zone num =>
      (GET, "/recallPreset",
       QueryParams [("zone", zone); ("num", num)])
  | NetworkUSB_storePreset num =>
      (GET, "/storePreset",
       QueryParams [("num", num)])
  | NetworkUSB_clearPreset num =>
      (GET, "/clearPreset",
       QueryParams [("num", num)])
  | NetworkUSB_movePreset from to =>
      (GET, "/movePreset",
       QueryParams [("from", from); ("to", to)])
  | NetworkUSB_getSettings => (GET, "/getSettings", NoPayload)
  | NetworkUSB_setQuality input value_ =>
      (GET, "/setQuality",
       QueryParams [("input", default_param input (VStr "qobuz")); ("value", value_)])
  | NetworkUSB_getRecentInfo => (GET, "/getRecentInfo", NoPayload)
  | NetworkUSB_recallRecentItem zone num =>
      (GET, "/recallRecentItem",
       QueryParams [("zone", zone); ("num", num)])
  | NetworkUSB_clearRecentInfo => (GET, "/clearRecentInfo", NoPayload)
  | NetworkUSB_managePlay type timeout =>
      (GET, "/managePlay",
       QueryParams [("type", type); ("timeout", default_param timeout (VNum 5000 0))])
  | NetworkUSB_manageList list_id type index zone timeout =>
      (GET, "/manageList",
       QueryParams [("list_id", list_id);
          ("type", type);
          ("index", index);
          ("zone", zone);
          ("timeout", default_param timeout (VNum 5000 0))])
  | NetworkUSB_getPlayDescription type timeout =>
      (GET, "/getPlayDescription",
       QueryParams [("type", default_param type (VStr "why_this_song"));
          ("timeout", default_param timeout (VNum 5000 0))])
  | NetworkUSB_setListSortOption input type =>
      (GET, "/setListSortOption",
       QueryParams [("input", default_param input (VStr "pandora"));
          ("type", default_param type (VStr "date"))])
  | NetworkUSB_getAccountStatus => (GET, "/getAccountStatus", NoPayload)
  | NetworkUSB_switchAccount input index timeout =>
      (GET, "/switchAccount",
       QueryParams [("input", input);
          ("index", index);
          ("timeout", default_param timeout (VNum 5000 0))])
  | NetworkUSB_getServiceInfo input type timeout =>
      (GET, "/getServiceInfo",
       QueryParams [("input", input);
          ("type", type);
          ("timeout", default_param timeout (VNum 5000 0))])
  | CD_getPlayInfo => (GET, "/getPlayInfo", NoPayload)
  | CD_setPlayback playback num =>
      (GET, "/setPlayback",
       QueryParams [("playback", playback); ("num", num)])
  | CD_toggleTray => (GET, "/toggleTray", NoPayload)
  | CD_toggleRepeat => (GET, "/toggleRepeat", NoPayload)
  | CD_toggleShuffle => (GET, "/toggleShuffle", NoPayload)
  | Clock_getSettings => (GET, "/getSettings", NoPayload)
  | Clock_setAutoSync enable =>
      (GET, "/setAutoSync",
       QueryParams [("enable", enable)])
  | Clock_setDateAndTime date_time =>
      (GET, "/setDateAndTime",
       QueryParams [("date_time", date_time)])
  | Clock_setClockFormat format =>
      (GET, "/setClockFormat",
       QueryParams [("format", default_param format (VStr "24h"))])
  | Clock_setAlarmSettings alarm_on volume fade_interval fade_type mode repeat detail =>
      (POST, "/setAlarmSettings",
       JsonBody (VObj [("alarm_on", alarm_on);
          ("volume", volume);
          ("fade_interval", fade_interval);
          ("fade_type", fade_type);
          ("mode", mode);
          ("repeat", repeat);
          ("detail", default_param detail setAlarmSettings_default_detail)]))
  end.

(** The argument of [resolve] in the method's [then] callback. *)
Definition op_result (op : operation) : result_shape :=
  match op with
  | System_getMacAddressFilter => Field "mac_address_filter"
  | System_setMacAddressFilter _ => Field "mac_address_filter"
  | System_getNetworkStandby => Field "network_standby"
  | System_setNetworkStandby _ => Field "network_standby"
  | System_getBluetoothInfo => Field "bluetooth_info"
  | System_setBluetoothStandby _ => Field "bluetooth_standby"
  | System_setBluetoothTxSetting _ => Field "bluetooth_tx_setting"
  | _ => WholeBody
  end.

(** *** The body shared by the endpoint methods

    Every method is
<<
    return new Promise((resolve, reject) => {
      this.#axiosInstance.get(...)            // or .post(...)
        .then((response) => {
          const res = response.data;
          if (res.response_code === 0) { resolve(res); } else { reject(res); }
        })
        .catch((error) => { reject(error); });
    });
>>
    with [res.<field>] in place of [res] in seven of them, and one check
    before the call in [setNetworkName]. *)

(** The [then] callback: it settles the promise, or throws when [res] has no
    properties to read. *)
Definition then_callback (shape : result_shape) (res : value) : settlement + js_error :=
  match get_prop res "response_code" with
  | inr exn => inr exn
  | inl code =>
      if strict_eq_zero code then
        match shape with
        | WholeBody => inl (Resolved res)
        | Field key =>
            match get_prop res key with
            | inl x => inl (Resolved x)
            | inr exn => inr exn
            end
        end
      else inl (Rejected res)
  end.

(** The [catch] callback: [reject(error)]. *)
Definition catch_callback (error : js_error) : settlement :=
  Rejected (VError error).

(** [.then(...).catch(...)] on the promise of the axios call: a rejection of
    that promise and an exception of the [then] callback both reach the
    [catch] callback. *)
Definition promise_chain (shape : result_shape) (o : http_outcome) : settlement :=
  match o with
  | HttpFulfilled res =>
      match then_callback shape res with
      | inl s => s
      | inr exn => catch_callback exn
      end
  | HttpRejected error => catch_callback error
  end.

(** The statements of a method before its axios call: only [setNetworkName]
    has any, [if (name.length > 32) return reject(new Error(...))].  The
    result is what the promise is rejected with before any call: the local
    Error, or the exception the test itself throws in the executor. *)
Definition local_validation (op : operation) : option js_error :=
  match op with
  | System_setNetworkName name =>
      match length_exceeds_32 name with
      | inl true =>
          Some (Error "The network name must not be longer than 32 characters.")
      | inl false => None
      | inr exn => Some exn
      end
  | _ => None
  end.

(** The result of calling a method: the requests handed to axios, in order,
    and how the returned promise settles. *)
Record outcome : Type := mk_outcome {
  issued : list request;
  settled : settlement
}.

(** The request a method hands to its axios instance [ax]. *)
Definition request_of (ax : axios_instance) (op : operation) : request :=
  let '(v, path, pl) := op_request op in
  mk_request ax v path pl.

(** [res.response_code === 0], false also when the read throws. *)
Definition response_code_zero (res : value) : bool :=
  match get_prop res "response_code" with
  | inl code => strict_eq_zero code
  | inr _ => false
  end.

(** [call ax op net]: the method [op] run on a client whose axios instance is
    [ax]; [net] is the answer of the network to a request. *)
Definition call (ax : axios_instance) (op : operation)
    (net : request -> http_outcome) : outcome :=
  match local_validation op with
  | Some err => {| issued := []; settled := Rejected (VError err) |}
  | None =>
      let req := request_of ax op in
      {| issued := [req]; settled := promise_chain (op_result op) (net req) |}
  end.

(** ** The platform: dgram sockets and the event emitter *)

(** A datagram as it arrives: the bytes of a [Buffer]. *)
Definition Buffer : Type := list Byte.byte.

(** What [socket.address()] returns. *)
Record address_info : Type := mk_address {
  a_address : string;
  a_family : string;
  a_port : Z
}.

Definition address_value (a : address_info) : value :=
  VObj [("address", VStr (a_address a));
        ("family", VStr (a_family a));
        ("port", VNum (a_port a) 0)].

(** Life of a dgram socket: created unbound; [bind] starts binding, which
    ends bound or, on failure, unbound again; [close] ends it. *)
Inductive sock_state : Type :=
  | Unbound
  | Binding (port : Z)
  | Bound (local : address_info)
  | Closed.

(** The three arrow functions [setupEventReceiver] registers on a socket. *)
Inductive handler : Type :=
  | OnError
  | OnMessage
  | OnListening.

Record socket : Type := mk_socket {
  s_type : string;
  s_state : sock_state;
  s_handlers : list (string * handler)
}.

(** Sockets are named by their position in the store. *)
Definition sock_id : Type := nat.

(** The calls made on the dgram module and on its sockets, and the
    assignments to [this.#server], as they happen. *)
Inductive effect : Type :=
  | CreateSocket (type : string) (s : sock_id)
  | On (s : sock_id) (event : string) (h : handler)
  | Bind (s : sock_id) (port : option Z)
  | Close (s : sock_id)
  | Address (s : sock_id)
  | AssignServer (srv : option sock_id).

(** One invocation of a listener subscribed on the facade. *)
Record delivery : Type := mk_delivery {
  d_listener : nat;
  d_event : string;
  d_args : list value
}.

(** The instance of [YamahaMusicCast]: its private fields ([None] is
    [undefined]; [#ipcMain] is declared and never used) and the listeners
    subscribed on it through the emitter it extends. *)
Record facade : Type := mk_facade {
  f_ip : option string;
  f_eventPort : option Z;
  f_server : option sock_id;
  f_system : option client;
  f_zone : option client;
  f_tuner : option client;
  f_netusb : option client;
  f_cd : option client;
  f_clock : option client;
  f_listeners : list (string * nat)
}.

Record world : Type := mk_world {
  sockets : list socket;
  trace : list effect;
  this : facade;
  delivered : list delivery
}.

(** A statement ends normally or throws; both leave a world behind. *)
Inductive result (A : Type) : Type :=
  | Normal (a : A) (w : world)
  | Throw (exn : value) (w : world).
Arguments Normal {A} a w.
Arguments Throw {A} exn w.

Definition M (A : Type) : Type := world -> result A.

#[export] Instance M_ret : MRet M := fun A a w => Normal a w.

#[export] Instance M_bind : MBind M := fun A B f m w =>
  match m w with
  | Normal a w' => f a w'
  | Throw exn w' => Throw exn w'
  end.

#[export] Instance M_throw : MThrow value M := fun A exn w => Throw exn w.

Definition gets {A : Type} (f : world -> A) : M A := fun w => Normal (f w) w.

Definition modify (f : world -> world) : M unit := fun w => Normal tt (f w).

Definition with_sockets (ss : list socket) (w : world) : world :=
  {| sockets := ss; trace := trace w; this := this w; delivered := delivered w |}.

Definition with_this (f : facade) (w : world) : world :=
  {| sockets := sockets w; trace := trace w; this := f; delivered := delivered w |}.

Definition log (c : effect) (w : world) : world :=
  {| sockets := sockets w; trace := trace w ++ [c]; this := this w;
     delivered := delivered w |}.

Definition log_deliveries (ds : list delivery) (w : world) : world :=
  {| sockets := sockets w; trace := trace w; this := this w;
     delivered := delivered w ++ ds |}.

Definition set_state (st : sock_state) (sk : socket) : socket :=
  {| s_type := s_type sk; s_state := st; s_handlers := s_handlers sk |}.

Definition add_handler (event : string) (h : handler) (sk : socket) : socket :=
  {| s_type := s_type sk; s_state := s_state sk;
     s_handlers := s_handlers sk ++ [(event, h)] |}.

(** *** dgram *)

Definition ERR_SOCKET_DGRAM_NOT_RUNNING : js_error :=
  mk_error "Error" "ERR_SOCKET_DGRAM_NOT_RUNNING" "Not running".

Definition ERR_SOCKET_ALREADY_BOUND : js_error :=
  mk_error "Error" "ERR_SOCKET_ALREADY_BOUND" "Socket is already bound".

Definition EBADF_getsockname : js_error :=
  mk_error "Error" "EBADF" "getsockname EBADF".

(** [dgram.createSocket(type)]: a new unbound socket without listeners. *)
Definition createSocket (type : string) : M sock_id := fun w =>
  let s := length (sockets w) in
  Normal s (log (CreateSocket type s)
             (with_sockets (sockets w ++ [mk_socket type Unbound []]) w)).

(** The socket a reference denotes; a reference always comes from
    [createSocket], a stale one is treated like a closed socket. *)
Definition the_socket (s : sock_id) : M socket := fun w =>
  match sockets w !! s with
  | Some sk => Normal sk w
  | None => Throw (VError ERR_SOCKET_DGRAM_NOT_RUNNING) w
  end.

Definition update_socket (s : sock_id) (f : socket -> socket) : M unit :=
  modify (fun w => with_sockets (alter f s (sockets w)) w).

(** [socket.on(event, h)] *)
Definition socket_on (s : sock_id) (event : string) (h : handler) : M unit :=
  modify (log (On s event h));;
  update_socket s (add_handler event h).

(** [socket.bind(port)]: throws on a closed socket and on one that is bound
    or binding; otherwise the bind is under way ([port || 0]) and ends later
    with a 'listening' or an 'error' event. *)
Definition socket_bind (s : sock_id) (port : option Z) : M unit :=
  modify (log (Bind s port));;
  sk ← the_socket s;
  match s_state sk with
  | Closed => mthrow (VError ERR_SOCKET_DGRAM_NOT_RUNNING)
  | Unbound => update_socket s (set_state (Binding (default 0%Z port)))
  | Binding _ | Bound _ => mthrow (VError ERR_SOCKET_ALREADY_BOUND)
  end.

(** [socket.close()]: throws "Not running" on a socket that is closed
    already; otherwise the socket is closed. *)
Definition socket_close (s : sock_id) : M unit :=
  modify (log (Close s));;
  sk ← the_socket s;
  match s_state sk with
  | Closed => mthrow (VError ERR_SOCKET_DGRAM_NOT_RUNNING)
  | _ => update_socket s (set_state Closed)
  end.

(** [socket.address()] *)
Definition socket_address (s : sock_id) : M value :=
  modify (log (Address s));;
  sk ← the_socket s;
  match s_state sk with
  | Bound a => mret (address_value a)
  | Closed => mthrow (VError ERR_SOCKET_DGRAM_NOT_RUNNING)
  | _ => mthrow (VError EBADF_getsockname)
  end.

(** *** The emitter the facade extends

    [emit(event, ...args)] calls the listeners subscribed for [event], in
    the order of subscription, and returns whether there was one.  An
    'error' event nobody listens to is thrown instead.  Listeners are
    observers: each call is recorded in [delivered] and returns; a listener
    of the embedding application that throws is not represented, and what is
    proved about deliveries is about listeners that return. *)
Definition subscribers (event : string) (f : facade) : list nat :=
  map snd (List.filter (fun p => String.eqb (fst p) event) (f_listeners f)).

Definition ERR_UNHANDLED_ERROR : js_error :=
  mk_error "Error" "ERR_UNHANDLED_ERROR" "Unhandled error.".

Definition emit (event : string) (args : list value) : M bool := fun w =>
  match subscribers event (this w) with
  | [] =>
      if String.eqb event "error" then
        match args with
        | VError err :: _ => Throw (VError err) w
        | _ => Throw (VError ERR_UNHANDLED_ERROR) w
        end
      else Normal false w
  | ls =>
      Normal true (log_deliveries (map (fun l => mk_delivery l event args) ls) w)
  end.

(** ** The facade: class YamahaMusicCast *)

Definition set_server (srv : option sock_id) (f : facade) : facade :=
  {| f_ip := f_ip f; f_eventPort := f_eventPort f; f_server := srv;
     f_system := f_system f; f_zone := f_zone f; f_tuner := f_tuner f;
     f_netusb := f_netusb f; f_cd := f_cd f; f_clock := f_clock f;
     f_listeners := f_listeners f |}.

Definition set_ip_field (ip : option string) (f : facade) : facade :=
  {| f_ip := ip; f_eventPort := f_eventPort f; f_server := f_server f;
     f_system := f_system f; f_zone := f_zone f; f_tuner := f_tuner f;
     f_netusb := f_netusb f; f_cd := f_cd f; f_clock := f_clock f;
     f_listeners := f_listeners f |}.

Definition set_eventPort_field (port : option Z) (f : facade) : facade :=
  {| f_ip := f_ip f; f_eventPort := port; f_server := f_server f;
     f_system := f_system f; f_zone := f_zone f; f_tuner := f_tuner f;
     f_netusb := f_netusb f; f_cd := f_cd f; f_clock := f_clock f;
     f_listeners := f_listeners f |}.

Definition set_client (k : client_kind) (c : client) (f : facade) : facade :=
  {| f_ip := f_ip f; f_eventPort := f_eventPort f; f_server := f_server f;
     f_system := match k with System => Some c | _ => f_system f end;
     f_zone := match k with Zone => Some c | _ => f_zone f end;
     f_tuner := match k with Tuner => Some c | _ => f_tuner f end;
     f_netusb := match k with NetworkUSB => Some c | _ => f_netusb f end;
     f_cd := match k with CD => Some c | _ => f_cd f end;
     f_clock := match k with Clock => Some c | _ => f_clock f end;
     f_listeners := f_listeners f |}.

(** The getters [system], [zone], [tuner], [netusb], [cd], [clock]. *)
Definition get_client (k : client_kind) (f : facade) : option client :=
  match k with
  | System => f_system f
  | Zone => f_zone f
  | Tuner => f_tuner f
  | NetworkUSB => f_netusb f
  | CD => f_cd f
  | Clock => f_clock f
  end.

(** A method call on [this.#server]; on [null] or [undefined] it is a
    TypeError. *)
Definition server : M sock_id := fun w =>
  match f_server (this w) with
  | Some s => Normal s w
  | None => Throw (VError (TypeError "Cannot read properties of null")) w
  end.

(** [this.#server = srv] *)
Definition assign_server (srv : option sock_id) : M unit :=
  modify (fun w => log (AssignServer srv) (with_this (set_server srv (this w)) w)).

(** [setupEventReceiver(eventPort)] *)
Definition setupEventReceiver (eventPort : option Z) : M unit :=
  srv ← gets (fun w => f_server (this w));
  match srv with
  | Some s =>
      socket_close s;;
      assign_server None
  | None => mret tt
  end;;
  (* Create a UDP server *)
  s ← createSocket "udp4";
  assign_server (Some s);;
  (* Listen for error events *)
  s ← server; socket_on s "error" OnError;;
  (* Listen for message events *)
  s ← server; socket_on s "message" OnMessage;;
  (* Listen for listening events *)
  s ← server; socket_on s "listening" OnListening;;
  (* Bind the server to the event port *)
  s ← server; socket_bind s eventPort.

(** [new YamahaMusicCastSystem(this.#ip, this.#eventPort)] and its five
    siblings: each constructor runs the [setup] of its class on the two
    fields as they are read back. *)
Definition new_client (k : client_kind) : M unit :=
  modify (fun w =>
    with_this (set_client k (client_setup k (f_ip (this w)) (f_eventPort (this w)))
                 (this w)) w).

(** [setup(ip, eventPort)] *)
Definition setup (ip : option string) (eventPort : option Z) : M unit :=
  (* Set the Yamaha receiver IP address *)
  modify (fun w => with_this (set_ip_field ip (this w)) w);;
  (* Set the Yamaha receiver event port *)
  modify (fun w => with_this (set_eventPort_field eventPort (this w)) w);;
  (* Set-up the event receiver *)
  setupEventReceiver eventPort;;
  new_client System;;
  new_client Zone;;
  new_client Tuner;;
  new_client NetworkUSB;;
  new_client CD;;
  new_client Clock.

(** The accessors [get ip], [set ip], [get eventPort], [set eventPort]. *)
Definition get_ip : M (option string) := gets (fun w => f_ip (this w)).

Definition set_ip (ip : option string) : M unit :=
  modify (fun w => with_this (set_ip_field ip (this w)) w).

Definition get_eventPort : M (option Z) := gets (fun w => f_eventPort (this w)).

Definition set_eventPort (eventPort : option Z) : M unit :=
  modify (fun w => with_this (set_eventPort_field eventPort (this w)) w).

(** *** Construction

    [class YamahaMusicCast extends EventEmitter] makes the constructor a
    derived one: [this] is bound by the call of [super()], and reading it
    before is a ReferenceError.  The constructor is
    [constructor(ipAddress, eventPort = 50001) { this.setup(ipAddress, eventPort); }]. *)
Definition default_eventPort : Z := 50001.

(** [this] in the body of a derived constructor that has not called
    [super()]. *)
Definition this_before_super : M unit :=
  mthrow (VError (ReferenceError
    "Must call super constructor in derived class before accessing 'this'")).

Definition constructor (ipAddress : option string) (eventPort : option Z) : M unit :=
  let eventPort :=
    match eventPort with
    | None => Some default_eventPort
    | Some p => Some p
    end in
  this_before_super;;
  setup ipAddress eventPort.

(** *** Evaluation of the module

    The names a reference can resolve to when the declaration of
    [YamahaMusicCast] is evaluated: what the file has declared above it, the
    parameters of the CommonJS module wrapper, and the globals of Node.js
    and of the language. *)
Definition declared_above : list string :=
  ["axios"; "dgram"; "YamahaMusicCastSystem"; "YamahaMusicCastZone";
   "YamahaMusicCastTuner"; "YamahaMusicCastNetworkUSB"; "YamahaMusicCastCD";
   "YamahaMusicCastClock"].

Definition module_wrapper : list string :=
  ["exports"; "require"; "module"; "__filename"; "__dirname"].

Definition node_globals : list string :=
  ["AbortController"; "AbortSignal"; "Blob"; "BroadcastChannel"; "Buffer";
   "ByteLengthQueuingStrategy"; "CompressionStream"; "CountQueuingStrategy";
   "Crypto"; "CryptoKey"; "CustomEvent"; "DOMException"; "DecompressionStream";
   "Event"; "EventSource"; "EventTarget"; "File"; "FormData"; "Headers";
   "MessageChannel"; "MessageEvent"; "MessagePort"; "Navigator";
   "PerformanceEntry"; "PerformanceMark"; "PerformanceMeasure";
   "PerformanceObserver"; "PerformanceObserverEntryList";
   "PerformanceResourceTiming"; "ReadableByteStreamController";
   "ReadableStream"; "ReadableStreamBYOBReader"; "ReadableStreamBYOBRequest";
   "ReadableStreamDefaultController"; "ReadableStreamDefaultReader"; "Request";
   "Response"; "SubtleCrypto"; "TextDecoder"; "TextDecoderStream";
   "TextEncoder"; "TextEncoderStream"; "TransformStream";
   "TransformStreamDefaultController"; "URL"; "URLSearchParams"; "WebAssembly";
   "WebSocket"; "WritableStream"; "WritableStreamDefaultController";
   "WritableStreamDefaultWriter"; "atob"; "btoa"; "clearImmediate";
   "clearInterval"; "clearTimeout"; "console"; "crypto"; "fetch"; "global";
   "navigator"; "performance"; "process"; "queueMicrotask"; "setImmediate";
   "setInterval"; "setTimeout"; "structuredClone"].

Definition language_globals : list string :=
  ["globalThis"; "Infinity"; "NaN"; "undefined"; "eval"; "isFinite"; "isNaN";
   "parseFloat"; "parseInt"; "decodeURI"; "decodeURIComponent"; "encodeURI";
   "encodeURIComponent"; "escape"; "unescape"; "AggregateError"; "Array";
   "ArrayBuffer"; "Atomics"; "BigInt"; "BigInt64Array"; "BigUint64Array";
   "Boolean"; "DataView"; "Date"; "Error"; "EvalError"; "FinalizationRegistry";
   "Float32Array"; "Float64Array"; "Function"; "Int16Array"; "Int32Array";
   "Int8Array"; "Intl"; "JSON"; "Map"; "Math"; "Number"; "Object"; "Promise";
   "Proxy"; "RangeError"; "ReferenceError"; "Reflect"; "RegExp"; "Set";
   "SharedArrayBuffer"; "String"; "Symbol"; "SyntaxError"; "TypeError";
   "URIError"; "Uint16Array"; "Uint32Array"; "Uint8Array"; "Uint8ClampedArray";
   "WeakMap"; "WeakRef"; "WeakSet"].

(** What the platform provides by itself. *)
Definition platform_globals : list string :=
  node_globals ++ language_globals.

(** [globals]: the global names at the time the file is evaluated, those of
    the platform and any the embedding application has added. *)
Definition in_scope (globals : list string) (x : string) : bool :=
  existsb (String.eqb x) (declared_above ++ module_wrapper ++ globals).

(** The identifier after [extends] in the class declaration. *)
Definition heritage : string := "EventEmitter".

(** Evaluating the class declaration evaluates its heritage first; an
    unresolvable reference is a ReferenceError, and the statements after the
    declaration ([module.exports = YamahaMusicCast]) are not reached. *)
Definition class_declaration (globals : list string) : M unit :=
  if in_scope globals heritage then mret tt
  else mthrow (VError (ReferenceError (heritage +:+ " is not defined"))).

(** [require] of the file followed by [new YamahaMusicCast(ipAddress, eventPort)].
    The constructor has no call of [super()], so [this] is unbound in its
    body. *)
Definition new_YamahaMusicCast (globals : list string) (ipAddress : option string)
    (eventPort : option Z) : M unit :=
  class_declaration globals;;
  constructor ipAddress eventPort.

(** ** The event receiver at work *)

(** What a socket emits. *)
Inductive socket_event : Type :=
  | SocketError (error : value)
  | SocketMessage (msg : Buffer) (rinfo : value)
  | SocketListening.

Definition event_name (ev : socket_event) : string :=
  match ev with
  | SocketError _ => "error"
  | SocketMessage _ _ => "message"
  | SocketListening => "listening"
  end.

(** What the event loop brings to a socket. *)
Inductive env_event : Type :=
  | BindSucceeded (s : sock_id) (local : address_info)
  | BindFailed (s : sock_id) (error : js_error)
  | DatagramArrived (s : sock_id) (msg : Buffer) (rinfo : value)
  | SocketFailed (s : sock_id) (error : js_error).

(** The handlers a socket has for an event, in the order of registration. *)
Definition handlers_for (event : string) (sk : socket) : list handler :=
  map snd (List.filter (fun p => String.eqb (fst p) event) (s_handlers sk)).

(** The state of the socket [s], if there is one. *)
Definition state_of (s : sock_id) (w : world) : option sock_state :=
  s_state <$> sockets w !! s.

Section Receiver.

(** [buf.toString()] (UTF-8 decoding) and [JSON.parse], which returns the
    parsed value or throws a SyntaxError. *)
Variable Buffer_toString : Buffer -> string.
Variable JSON_parse : string -> value + js_error.

Definition parse (text : string) : M value := fun w =>
  match JSON_parse text with
  | inl v => Normal v w
  | inr exn => Throw (VError exn) w
  end.

(** [(error) => { this.emit('error', error); this.#server.close(); }] *)
Definition on_error (error : value) : M unit :=
  emit "error" [error];;
  s ← server; socket_close s.

(** [(msg, rinfo) => { const json = JSON.parse(msg.toString());
                       this.emit('message', rinfo, json); }] *)
Definition on_message (msg : Buffer) (rinfo : value) : M unit :=
  json ← parse (Buffer_toString msg);
  emit "message" [rinfo; json];;
  mret tt.

(** [() => { const address = this.#server.address();
             this.emit('listening', address); }] *)
Definition on_listening : M unit :=
  s ← server;
  address ← socket_address s;
  emit "listening" [address];;
  mret tt.

(** A handler called for an event.  [setupEventReceiver] registers each
    handler under its own event only; the other pairs do nothing. *)
Definition run_handler (h : handler) (ev : socket_event) : M unit :=
  match h, ev with
  | OnError, SocketError error => on_error error
  | OnMessage, SocketMessage msg rinfo => on_message msg rinfo
  | OnListening, SocketListening => on_listening
  | _, _ => mret tt
  end.

Fixpoint run_handlers (hs : list handler) (ev : socket_event) : M unit :=
  match hs with
  | [] => mret tt
  | h :: hs' => run_handler h ev;; run_handlers hs' ev
  end.

(** The socket, an emitter itself, emits [ev]: the handlers registered for
    it run in order, and an exception of one of them leaves the emit. *)
Definition socket_emit (s : sock_id) (ev : socket_event) : M unit :=
  sk ← the_socket s;
  match handlers_for (event_name ev) sk, ev with
  | [], SocketError error => mthrow error
  | hs, _ => run_handlers hs ev
  end.

(** One turn of the event loop.  A bind under way ends bound, at the local
    address the system gives, with 'listening', or unbound with 'error'; a
    bound socket receives datagrams and may fail.  [None]: the event cannot
    happen in [w]. *)
Definition env_step (ev : env_event) (w : world) : option (result unit) :=
  match ev with
  | BindSucceeded s local =>
      match state_of s w with
      | Some (Binding _) =>
          Some ((update_socket s (set_state (Bound local));;
                 socket_emit s SocketListening) w)
      | _ => None
      end
  | BindFailed s error =>
      match state_of s w with
      | Some (Binding _) =>
          Some ((update_socket s (set_state Unbound);;
                 socket_emit s (SocketError (VError error))) w)
      | _ => None
      end
  | DatagramArrived s msg rinfo =>
      match state_of s w with
      | Some (Bound _) => Some (socket_emit s (SocketMessage msg rinfo) w)
      | _ => None
      end
  | SocketFailed s error =>
      match state_of s w with
      | Some (Bound _) => Some (socket_emit s (SocketError (VError error)) w)
      | _ => None
      end
  end.

End Receiver.

(** ** A reference platform

    A decoder and a JSON parser to run the receiver on concrete datagrams.
    Text is kept as its UTF-8 bytes, so decoding a well-formed buffer keeps
    the bytes; the parser follows the JSON grammar (ECMA-404). *)

Definition SyntaxError (message : string) : js_error :=
  mk_error "SyntaxError" EmptyString message.

Definition utf8_toString (msg : Buffer) : string :=
  string_of_list_byte msg.

(** The quotation mark, character 34. *)
Abbreviation quote := (Ascii false true false false false true false false).

Definition is_ws (c : ascii) : bool :=
  match nat_of_ascii c with
  | 32%nat | 9%nat | 10%nat | 13%nat => true
  | _ => false
  end.

Fixpoint skip_ws (l : list ascii) : list ascii :=
  match l with
  | c :: r => if is_ws c then skip_ws r else l
  | [] => []
  end.

Definition digit_of (c : ascii) : option Z :=
  let n := nat_of_ascii c in
  if ((48 <=? n) && (n <=? 57))%nat then Some (Z.of_nat n - 48)%Z else None.

Definition hex_of (c : ascii) : option Z :=
  let n := nat_of_ascii c in
  if ((48 <=? n) && (n <=? 57))%nat then Some (Z.of_nat n - 48)%Z
  else if ((65 <=? n) && (n <=? 70))%nat then Some (Z.of_nat n - 55)%Z
  else if ((97 <=? n) && (n <=? 102))%nat then Some (Z.of_nat n - 87)%Z
  else None.

(** Digits at the head of [l]: their value after [acc], how many, the rest. *)
Fixpoint read_digits (l : list ascii) (acc : Z) (n : nat) : Z * nat * list ascii :=
  match l with
  | c :: r =>
      match digit_of c with
      | Some d => read_digits r (acc * 10 + d)%Z (S n)
      | None => (acc, n, l)
      end
  | [] => (acc, n, [])
  end.

(** [int frac? exp?] after the optional minus sign. *)
Definition read_number (neg : bool) (l : list ascii) : option (value * list ascii) :=
  let '(i, ni, r1) := read_digits l 0%Z 0%nat in
  let leading_zero := match l with "0"%char :: _ => (1 <? ni)%nat | _ => false end in
  if (ni =? 0)%nat || leading_zero then None else
  let frac :=
    match r1 with
    | "."%char :: r =>
        let '(m, nf, r2) := read_digits r i 0%nat in
        if (nf =? 0)%nat then None else Some (m, nf, r2)
    | _ => Some (i, 0%nat, r1)
    end in
  match frac with
  | None => None
  | Some (m, nf, r2) =>
      let sm := if neg then (- m)%Z else m in
      let expo (r : list ascii) (sign : Z) :=
        let '(x, nx, r3) := read_digits r 0%Z 0%nat in
        if (nx =? 0)%nat then None
        else Some (VNum sm (sign * x - Z.of_nat nf)%Z, r3) in
      match r2 with
      | ("e" | "E")%char :: "+"%char :: r => expo r 1%Z
      | ("e" | "E")%char :: "-"%char :: r => expo r (-1)%Z
      | ("e" | "E")%char :: r => expo r 1%Z
      | _ => Some (VNum sm (- Z.of_nat nf)%Z, r2)
      end
  end.

Definition byte_char (n : Z) : ascii := ascii_of_nat (Z.to_nat n).

(** The UTF-8 bytes of the code unit of a [\uXXXX] escape. *)
Definition utf8_of_unit (u : Z) : list ascii :=
  if (u <? 128)%Z then [byte_char u]
  else if (u <? 2048)%Z then
    [byte_char (192 + u / 64); byte_char (128 + u mod 64)]
  else
    [byte_char (224 + u / 4096); byte_char (128 + (u / 64) mod 64);
     byte_char (128 + u mod 64)].

(** The characters of a string literal after its opening quote. *)
Fixpoint read_string (fuel : nat) (l : list ascii) (acc : list ascii)
    : option (string * list ascii) :=
  match fuel with
  | O => None
  | S fuel' =>
      match l with
      | quote :: r => Some (string_of_list_ascii (rev acc), r)
      | "\"%char :: e :: r =>
          let simple (c : ascii) := read_string fuel' r (c :: acc) in
          match e with
          | quote => simple quote
          | "\"%char => simple "\"%char
          | "/"%char => simple "/"%char
          | "b"%char => simple (ascii_of_nat 8)
          | "f"%char => simple (ascii_of_nat 12)
          | "n"%char => simple (ascii_of_nat 10)
          | "r"%char => simple (ascii_of_nat 13)
          | "t"%char => simple (ascii_of_nat 9)
          | "u"%char =>
              match r with
              | a :: b :: c :: d :: r' =>
                  match hex_of a, hex_of b, hex_of c, hex_of d with
                  | Some x3, Some x2, Some x1, Some x0 =>
                      let u := (((x3 * 16 + x2) * 16 + x1) * 16 + x0)%Z in
                      read_string fuel' r' (rev (utf8_of_unit u) ++ acc)
                  | _, _, _, _ => None
                  end
              | _ => None
              end
          | _ => None
          end
      | c :: r =>
          if (nat_of_ascii c <? 32)%nat then None
          else read_string fuel' r (c :: acc)
      | [] => None
      end
  end.

(** Assignment of a property: a repeated key keeps its place and takes the
    later value. *)
Fixpoint set_field (k : string) (v : value) (fs : list (string * value))
    : list (string * value) :=
  match fs with
  | [] => [(k, v)]
  | (k', v') :: fs' =>
      if String.eqb k k' then (k, v) :: fs' else (k', v') :: set_field k v fs'
  end.

Definition expect (lit : string) (v : value) (l : list ascii)
    : option (value * list ascii) :=
  let n := String.length lit in
  if String.eqb (string_of_list_ascii (firstn n l)) lit
  then Some (v, skipn n l) else None.

Fixpoint parse_value (fuel : nat) (l : list ascii) : option (value * list ascii) :=
  match fuel with
  | O => None
  | S fuel' =>
      match skip_ws l with
      | "{"%char :: r =>
          match skip_ws r with
          | "}"%char :: r' => Some (VObj [], r')
          | r' => parse_members fuel' r' []
          end
      | "["%char :: r =>
          match skip_ws r with
          | "]"%char :: r' => Some (VArr [], r')
          | r' => parse_elements fuel' r' []
          end
      | quote :: r =>
          match read_string (S (length r)) r [] with
          | Some (s, r') => Some (VStr s, r')
          | None => None
          end
      | "-"%char :: r => read_number true r
      | "t"%char :: _ => expect "true" (VBool true) (skip_ws l)
      | "f"%char :: _ => expect "false" (VBool false) (skip_ws l)
      | "n"%char :: _ => expect "null" VNull (skip_ws l)
      | r => read_number false r
      end
  end
with parse_members (fuel : nat) (l : list ascii) (acc : list (string * value))
    : option (value * list ascii) :=
  match fuel with
  | O => None
  | S fuel' =>
      match skip_ws l with
      | quote :: r =>
          match read_string (S (length r)) r [] with
          | Some (k, r1) =>
              match skip_ws r1 with
              | ":"%char :: r2 =>
                  match parse_value fuel' r2 with
                  | Some (v, r3) =>
                      match skip_ws r3 with
                      | ","%char :: r4 => parse_members fuel' r4 (set_field k v acc)
                      | "}"%char :: r4 => Some (VObj (set_field k v acc), r4)
                      | _ => None
                      end
                  | None => None
                  end
              | _ => None
              end
          | None => None
          end
      | _ => None
      end
  end
with parse_elements (fuel : nat) (l : list ascii) (acc : list value)
    : option (value * list ascii) :=
  match fuel with
  | O => None
  | S fuel' =>
      match parse_value fuel' l with
      | Some (v, r) =>
          match skip_ws r with
          | ","%char :: r' => parse_elements fuel' r' (acc ++ [v])
          | "]"%char :: r' => Some (VArr (acc ++ [v]), r')
          | _ => None
          end
      | None => None
      end
  end.

(** [JSON.parse(text)] on the reference platform: one value, white space
    around it, nothing else. *)
Definition json_parse (text : string) : value + js_error :=
  let l := list_ascii_of_string text in
  match parse_value (2 * length l + 2) l with
  | Some (v, r) =>
      match skip_ws r with
      | [] => inl v
      | _ => inr (SyntaxError "Unexpected non-whitespace character after JSON")
      end
  | None => inr (SyntaxError "Unexpected token or end of JSON input")
  end.

(** ** States of the receiver

    The handlers as [setupEventReceiver] registers them, the socket it
    leaves behind, and the effects of opening the socket numbered [n]. *)
Definition wired : list (string * handler) :=
  [("error", OnError); ("message", OnMessage); ("listening", OnListening)].

Definition wired_socket (st : sock_state) : socket :=
  mk_socket "udp4" st wired.

Definition opening (n : sock_id) (port : option Z) : list effect :=
  [CreateSocket "udp4" n; AssignServer (Some n); On n "error" OnError;
   On n "message" OnMessage; On n "listening" OnListening; Bind n port].

(** An instance before [setup]: every private field is [undefined]. *)
Definition fresh (listeners : list (string * nat)) : facade :=
  {| f_ip := None; f_eventPort := None; f_server := None;
     f_system := None; f_zone := None; f_tuner := None;
     f_netusb := None; f_cd := None; f_clock := None;
     f_listeners := listeners |}.

(** An instance after [setup(ip, eventPort)] opened the socket numbered [n]. *)
Definition configured (ip : option string) (eventPort : option Z) (n : sock_id)
    (listeners : list (string * nat)) : facade :=
  {| f_ip := ip; f_eventPort := eventPort; f_server := Some n;
     f_system := Some (client_setup System ip eventPort);
     f_zone := Some (client_setup Zone ip eventPort);
     f_tuner := Some (client_setup Tuner ip eventPort);
     f_netusb := Some (client_setup NetworkUSB ip eventPort);
     f_cd := Some (client_setup CD ip eventPort);
     f_clock := Some (client_setup Clock ip eventPort);
     f_listeners := listeners |}.

(** ** The whole table and the facade in use *)

(** The name of the method. *)
Definition op_method (op : operation) : string :=
  match op with
  | System_getDeviceInfo => "getDeviceInfo"
  | System_getFeatures => "getFeatures"
  | System_getNetworkStatus => "getNetworkStatus"
  | System_setWiredLan _ => "setWiredLan"
  | System_setWirelessLan _ => "setWirelessLan"
  | System_setIPSettings _ => "setIPSettings"
  | System_setNetworkName _ => "setNetworkName"
  | System_setAirPlayPin _ => "setAirPlayPin"
  | System_getMacAddressFilter => "getMacAddressFilter"
  | System_setMacAddressFilter _ => "setMacAddressFilter"
  | System_getNetworkStandby => "getNetworkStandby"
  | System_setNetworkStandby _ => "setNetworkStandby"
  | System_getBluetoothInfo => "getBluetoothInfo"
  | System_setBluetoothStandby _ => "setBluetoothStandby"
  | System_setBluetoothTxSetting _ => "setBluetoothTxSetting"
  | System_getBluetoothDeviceList => "getBluetoothDeviceList"
  | System_updateBluetoothDeviceList => "updateBluetoothDeviceList"
  | System_connectBluetoothDevice _ => "connectBluetoothDevice"
  | System_disconnectBluetoothDevice => "disconnectBluetoothDevice"
  | System_getFuncStatus => "getFuncStatus"
  | System_setAutoPowerStandby _ => "setAutoPowerStandby"
  | System_setIrSensor _ => "setIrSensor"
  | System_setSpeakerA _ => "setSpeakerA"
  | System_setSpeakerB _ => "setSpeakerB"
  | System_setDimmer _ => "setDimmer"
  | System_setZoneBVolumeSync _ => "setZoneBVolumeSync"
  | System_setHdmiOut1 _ => "setHdmiOut1"
  | System_setHdmiOut2 _ => "setHdmiOut2"
  | System_getNameText _ => "getNameText"
  | System_setNameText _ _ => "setNameText"
  | System_getLocationInfo => "getLocationInfo"
  | System_sendIrCode _ => "sendIrCode"
  | Zone_getStatus _ => "getStatus"
  | Zone_getSoundProgramList _ => "getSoundProgramList"
  | Zone_setPower _ _ => "setPower"
  | Zone_setSleep _ _ => "setSleep"
  | Zone_setVolume _ _ _ => "setVolume"
  | Zone_setMute _ _ => "setMute"
  | Zone_setInput _ _ _ => "setInput"
  | Zone_setSoundProgram _ _ => "setSoundProgram"
  | Zone_set3dSurround _ _ => "set3dSurround"
  | Zone_setDirect _ _ => "setDirect"
  | Zone_setPureDirect _ _ => "setPureDirect"
  | Zone_setEnhancer _ _ => "setEnhancer"
  | Zone_setToneControl _ _ _ _ => "setToneControl"
  | Zone_setEqualizer _ _ _ _ _ => "setEqualizer"
  | Zone_setBalance _ _ => "setBalance"
  | Zone_setDialogueLevel _ _ => "setDialogueLevel"
  | Zone_setDialogueLift _ _ => "setDialogueLift"
  | Zone_setClearVoice _ _ => "setClearVoice"
  | Zone_setSubwooferVolume _ _ => "setSubwooferVolume"
  | Zone_setBassExtension _ _ => "setBassExtension"
  | Zone_getSignalInfo _ => "getSignalInfo"
  | Zone_prepareInputChange _ _ => "prepareInputChange"
  | Tuner_getPresetInfo _ => "getPresetInfo"
  | Tuner_getPlayInfo => "getPlayInfo"
  | Tuner_setBand _ => "setBand"
  | Tuner_setFreq _ _ _ => "setFreq"
  | Tuner_recallPreset _ _ _ => "recallPreset"
  | Tuner_switchPreset _ => "switchPreset"
  | Tuner_storePreset _ => "storePreset"
  | Tuner_clearPreset _ _ => "clearPreset"
  | Tuner_startAutoPreset _ => "startAutoPreset"
  | Tuner_cancelAutoPreset _ => "cancelAutoPreset"
  | Tuner_movePreset _ _ _ => "movePreset"
  | Tuner_startDabInitialScan => "startDabInitialScan"
  | Tuner_cancelDabInitialScan => "cancelDabInitialScan"
  | Tuner_setDabTuneAid _ => "setDabTuneAid"
  | Tuner_setDabService _ => "setDabService"
  | NetworkUSB_getPresetInfo => "getPresetInfo"
  | NetworkUSB_getPlayInfo => "getPlayInfo"
  | NetworkUSB_setPlayback _ => "setPlayback"
  | NetworkUSB_setPlayPosition _ => "setPlayPosition"
  | NetworkUSB_toggleRepeat => "toggleRepeat"
  | NetworkUSB_toggleShuffle => "toggleShuffle"
  | NetworkUSB_getListInfo _ _ _ _ _ => "getListInfo"
  | NetworkUSB_setListControl _ _ _ _ => "setListControl"
  | NetworkUSB_setSearchString _ _ _ => "setSearchString"
  | NetworkUSB_recallPreset _ _ => "recallPreset"
  | NetworkUSB_storePreset _ => "storePreset"
  | NetworkUSB_clearPreset _ => "clearPreset"
  | NetworkUSB_movePreset _ _ => "movePreset"
  | NetworkUSB_getSettings => "getSettings"
  | NetworkUSB_setQuality _ _ => "setQuality"
  | NetworkUSB_getRecentInfo => "getRecentInfo"
  | NetworkUSB_recallRecentItem _ _ => "recallRecentItem"
  | NetworkUSB_clearRecentInfo => "clearRecentInfo"
  | NetworkUSB_managePlay _ _ => "managePlay"
  | NetworkUSB_manageList _ _ _ _ _ => "manageList"
  | NetworkUSB_getPlayDescription _ _ => "getPlayDescription"
  | NetworkUSB_setListSortOption _ _ => "setListSortOption"
  | NetworkUSB_getAccountStatus => "getAccountStatus"
  | NetworkUSB_switchAccount _ _ _ => "switchAccount"
  | NetworkUSB_getServiceInfo _ _ _ => "getServiceInfo"
  | CD_getPlayInfo => "getPlayInfo"
  | CD_setPlayback _ _ => "setPlayback"
  | CD_toggleTray => "toggleTray"
  | CD_toggleRepeat => "toggleRepeat"
  | CD_toggleShuffle => "toggleShuffle"
  | Clock_getSettings => "getSettings"
  | Clock_setAutoSync _ => "setAutoSync"
  | Clock_setDateAndTime _ => "setDateAndTime"
  | Clock_setClockFormat _ => "setClockFormat"
  | Clock_setAlarmSettings _ _ _ _ _ _ _ => "setAlarmSettings"
  end.

(** The zone a method of the zone client is called for. *)
Definition op_zone (op : operation) : option string :=
  match op with
  | Zone_getStatus zone => Some zone
  | Zone_getSoundProgramList zone => Some zone
  | Zone_setPower zone _ => Some zone
  | Zone_setSleep zone _ => Some zone
  | Zone_setVolume zone _ _ => Some zone
  | Zone_setMute zone _ => Some zone
  | Zone_setInput zone _ _ => Some zone
  | Zone_setSoundProgram zone _ => Some zone
  | Zone_set3dSurround zone _ => Some zone
  | Zone_setDirect zone _ => Some zone
  | Zone_setPureDirect zone _ => Some zone
  | Zone_setEnhancer zone _ => Some zone
  | Zone_setToneControl zone _ _ _ => Some zone
  | Zone_setEqualizer zone _ _ _ _ => Some zone
  | Zone_setBalance zone _ => Some zone
  | Zone_setDialogueLevel zone _ => Some zone
  | Zone_setDialogueLift zone _ => Some zone
  | Zone_setClearVoice zone _ => Some zone
  | Zone_setSubwooferVolume zone _ => Some zone
  | Zone_setBassExtension zone _ => Some zone
  | Zone_getSignalInfo zone => Some zone
  | Zone_prepareInputChange zone _ => Some zone
  | _ => None
  end.

(** The path a method would have if it were named after the method: under
    the zone for the zone client, under the root for the others. *)
Definition named_path (op : operation) : string :=
  match op_zone op with
  | Some zone => zone +:+ "/" +:+ op_method op
  | None => "/" +:+ op_method op
  end.

Definition has_body (pl : payload) : bool :=
  match pl with
  | JsonBody _ => true
  | _ => false
  end.

(** A method called through the facade, [facade.system.getDeviceInfo()] and
    the like: the getter of the method's class, then the method on the
    client it returns; on [undefined] the call is a TypeError. *)
Definition invoke (op : operation) (net : request -> http_outcome) : M outcome :=
  fun w =>
    match get_client (op_client op) (this w) with
    | Some c => Normal (call (c_axiosInstance c) op net) w
    | None => Throw (VError (TypeError "Cannot read properties of undefined")) w
    end.

(** The world a statement leaves behind, however it ends. *)
Definition world_of {A : Type} (r : result A) : world :=
  match r with
  | Normal _ w => w
  | Throw _ w => w
  end.

(** What holds of the sockets of an instance at all times: each one is as
    [setupEventReceiver] wired it, one that is not closed is the one
    [#server] refers to, and [#server] refers to a socket that exists. *)
Definition receiver_inv (w : world) : Prop :=
  (forall i sk, sockets w !! i = Some sk ->
     exists st, sk = wired_socket st
                /\ (st <> Closed -> f_server (this w) = Some i))
  /\ (forall s, f_server (this w) = Some s -> (s < length (sockets w))%nat).

(** A statement keeps the invariant: whichever way it ends, the world it
    leaves satisfies it if the world it started in did. *)
Definition keeps {A : Type} (m : M A) : Prop :=
  forall w, receiver_inv w -> receiver_inv (world_of (m w)).

Section Loop.

Variable Buffer_toString : Buffer -> string.
Variable JSON_parse : string -> value + js_error.

(** The event loop over a sequence of events: it goes on while the handlers
    return, and stops at the first exception or impossible event. *)
Fixpoint run_events (evs : list env_event) (w : world) : option (result unit) :=
  match evs with
  | [] => Some (Normal tt w)
  | ev :: evs' =>
      match env_step Buffer_toString JSON_parse ev w with
      | Some (Normal _ w') => run_events evs' w'
      | other => other
      end
  end.

End Loop.

(** ** Sample data *)

Definition sample_ip : option string := Some "192.168.1.10".

Definition sample_axios : axios_instance :=
  c_axiosInstance (client_setup System sample_ip (Some 50001%Z)).

Definition sample_zone_axios : axios_instance :=
  c_axiosInstance (client_setup Zone sample_ip (Some 50001%Z)).

Definition name_32 : string := "Living-Room-Receiver-RX-V583-001".

Definition name_33 : string := "Living-Room-Receiver-RX-V583-0001".

Definition too_long : js_error :=
  Error "The network name must not be longer than 32 characters.".

(** A device that accepts everything. *)
Definition net_ok (req : request) : http_outcome :=
  HttpFulfilled (VObj [("response_code", VNum 0 0);
                       ("mac_address_filter", VObj [("filter", VBool false)]);
                       ("network_standby", VStr "auto")]).

(** A device that answers with its error code 3. *)
Definition net_refused (req : request) : http_outcome :=
  HttpFulfilled (VObj [("response_code", VNum 3 0)]).

(** A network on which every call times out. *)
Definition net_down (req : request) : http_outcome :=
  HttpRejected (mk_error "AxiosError" "ECONNABORTED" "timeout of 15000ms exceeded").

Definition EADDRINUSE : js_error :=
  mk_error "Error" "EADDRINUSE" "bind EADDRINUSE 0.0.0.0:50001".

Definition local_50001 : address_info := mk_address "0.0.0.0" "IPv4" 50001.

Definition sender : value :=
  VObj [("address", VStr "192.168.1.10"); ("family", VStr "IPv4");
        ("port", VNum 41100 0); ("size", VNum 7 0)].

(** An instance before [setup], with listener 1 subscribed for 'error' and
    listener 2 for 'message'; no socket exists yet. *)
Definition world_start : world :=
  mk_world [] [] (fresh [("error", 1%nat); ("message", 2%nat)]) [].

(** The same after [setup]: the bind on port 50001 is under way. *)
Definition world_binding : world :=
  mk_world [wired_socket (Binding 50001%Z)] (opening 0%nat (Some 50001%Z))
    (configured sample_ip (Some 50001%Z) 0%nat [("error", 1%nat); ("message", 2%nat)]) [].

(** The same after the bind succeeded and the listening handler ran. *)
Definition world_listening : world :=
  mk_world [wired_socket (Bound local_50001)]
    (opening 0%nat (Some 50001%Z) ++ [Address 0%nat])
    (configured sample_ip (Some 50001%Z) 0%nat [("error", 1%nat); ("message", 2%nat)]) [].

(** The same after the bind failed instead and the error handler ran:
    listener 1 has been told, the socket is closed, [#server] refers to it. *)
Definition world_faulted : world :=
  mk_world [wired_socket Closed]
    (opening 0%nat (Some 50001%Z) ++ [Close 0%nat])
    (configured sample_ip (Some 50001%Z) 0%nat [("error", 1%nat); ("message", 2%nat)])
    [mk_delivery 1 "error" [VError EADDRINUSE]].

(** A receiver nobody has subscribed to, its bind on port 50001 under way. *)
Definition world_unobserved : world :=
  mk_world [wired_socket (Binding 50001%Z)] (opening 0%nat (Some 50001%Z))
    (configured sample_ip (Some 50001%Z) 0%nat []) [].

(** The seven bytes of the text {"a":1}. *)
Definition datagram_a1 : Buffer :=
  [Byte.x7b; Byte.x22; Byte.x61; Byte.x22; Byte.x3a; Byte.x31; Byte.x7d].

Definition datagram_garbage : Buffer := list_byte_of_string "not json".

(** * Properties *)

(** ** The response envelope *)

Lemma get_prop_object (fs : list (string * value)) (k : string) :
  exists x, get_prop (VObj fs) k = inl x.
Proof. simpl. eauto. Qed.

(** A body whose [response_code] is 0 is an object. *)
Lemma response_code_zero_object (res : value) :
  response_code_zero res = true -> exists fs, res = VObj fs.
Proof.
  unfold response_code_zero.
  destruct res; simpl; try discriminate; eauto.
Qed.

Lemma then_callback_zero (shape : result_shape) (res : value) :
  response_code_zero res = true ->
  exists x, then_callback shape res = inl (Resolved x) /\
            match shape with
            | WholeBody => x = res
            | Field key => get_prop res key = inl x
            end.
Proof.
  intros Hz. destruct (response_code_zero_object res Hz) as [fs ->].
  unfold response_code_zero in Hz. unfold then_callback.
  destruct (get_prop (VObj fs) "response_code") as [code|exn]; [|discriminate].
  rewrite Hz. destruct shape as [|key].
  - exists (VObj fs). split; reflexivity.
  - destruct (get_prop_object fs key) as [x Hx]. rewrite Hx.
    exists x. split; reflexivity.
Qed.

Lemma then_callback_nonzero (shape : result_shape) (res : value) :
  response_code_zero res = false ->
  then_callback shape res =
    match get_prop res "response_code" with
    | inl _ => inl (Rejected res)
    | inr exn => inr exn
    end.
Proof.
  unfold response_code_zero, then_callback.
  destruct (get_prop res "response_code") as [code|exn]; [|reflexivity].
  intros ->. reflexivity.
Qed.

(** A length is a natural number: the comparison is the one on [nat]. *)
Lemma exceeds_32_nat (n : nat) :
  exceeds_32 (Finite (Z.of_nat n) 0) = (32 <? n)%nat.
Proof.
  unfold exceeds_32. change (0 <=? 0)%Z with true. cbv iota.
  rewrite Z.pow_0_r, Z.mul_1_r.
  change (2 ^ 48)%Z with 281474976710656%Z.
  destruct (Z.ltb_spec (32 * 281474976710656 + 1) (281474976710656 * Z.of_nat n)),
    (Nat.ltb_spec 32 n); try reflexivity; lia.
Qed.

Lemma length_exceeds_32_string (s : string) :
  length_exceeds_32 (VStr s) = inl (32 <? String.length s)%nat.
Proof.
  rewrite <- exceeds_32_nat. reflexivity.
Qed.



(** C2. For every endpoint method: when the exchange takes place and the
    body of the response has [response_code === 0], the promise resolves,
    with the whole body or with the field of the body that the method names
    ([mac_address_filter] for getMacAddressFilter, [network_standby] for
    getNetworkStandby, the whole body for getDeviceInfo). *)
Theorem zero_response_code_resolves
    (ax : axios_instance) (op : operation) (net : request -> http_outcome)
    (req : request) (res : value) :
  issued (call ax op net) = [req] ->
  net req = HttpFulfilled res ->
  response_code_zero res = true ->
  (exists x, settled (call ax op net) = Resolved x /\
             match op_result op with
             | WholeBody => x = res
             | Field key => get_prop res key = inl x
             end)
  /\ op_result System_getMacAddressFilter = Field "mac_address_filter"
  /\ op_result System_getNetworkStandby = Field "network_standby"
  /\ op_result System_getDeviceInfo = WholeBody.
Proof.
  intros Hreq Hnet Hz. split; [|repeat split].
  unfold call in *. destruct (local_validation op); simpl in *; [discriminate|].
  injection Hreq as Hreq. rewrite Hreq, Hnet. simpl.
  destruct (then_callback_zero (op_result op) res Hz) as (x & -> & Hx).
  exists x. split; [reflexivity|assumption].
Qed.

Lemma zero_response_code_resolves_witness :
  exists x, settled (call sample_axios System_getMacAddressFilter net_ok) = Resolved x
            /\ x = VObj [("filter", VBool false)].
Proof.
  destruct (zero_response_code_resolves sample_axios System_getMacAddressFilter net_ok
              (request_of sample_axios System_getMacAddressFilter)
              (VObj [("response_code", VNum 0 0);
                     ("mac_address_filter", VObj [("filter", VBool false)]);
                     ("network_standby", VStr "auto")]))
    as [(x & Hx & Hfield) _]; try reflexivity.
  exists x. split; [assumption|]. simpl in Hfield. congruence.
Defined.



(** [setNetworkName()] and [setNetworkName(null)] reject with the TypeError
    of reading [name.length]; an object whose [length] cannot be turned
    into a primitive rejects with the TypeError of the comparison; a number
    has no [length] and is posted as it is.  None of the rejections makes a
    request.  A [length] that is not a number is turned into one: [" 0x21 "]
    and [["3.3e1"]] are 33, a text that is no numeral is NaN, and a numeral
    within [2^-48] of 32 is 32. *)
Example setNetworkName_without_a_string :
  call sample_axios (System_setNetworkName VUndefined) net_ok
    = mk_outcome []
        (Rejected (VError (TypeError
           "Cannot read properties of undefined (reading 'length')")))
  /\ call sample_axios (System_setNetworkName VNull) net_ok
       = mk_outcome []
           (Rejected (VError (TypeError
              "Cannot read properties of null (reading 'length')")))
  /\ call sample_axios
       (System_setNetworkName (VObj [("length", VObj [("toString", VNull)])])) net_ok
       = mk_outcome []
           (Rejected (VError (TypeError "Cannot convert object to primitive value")))
  /\ issued (call sample_axios (System_setNetworkName (VNum 5 0)) net_ok)
       = [mk_request sample_axios POST "/setNetworkName"
            (JsonBody (VObj [("name", VNum 5 0)]))]
  /\ length_exceeds_32 (VObj [("length", VStr " 0x21 ")]) = inl true
  /\ length_exceeds_32 (VObj [("length", VArr [VStr "3.3e1"])]) = inl true
  /\ length_exceeds_32 (VObj [("length", VStr "32 characters")]) = inl false
  /\ length_exceeds_32 (VObj [("length", VStr "32.00000000000001")]) = inl true
  /\ length_exceeds_32 (VObj [("length", VStr "32.000000000000001")]) = inl false.
Proof. repeat split. Qed.

(** The two rejections the envelope itself produces: the body with the
    device's code, and the error object of the failed call. *)
Example envelope_rejections :
  settled (call sample_axios System_getDeviceInfo net_refused)
    = Rejected (VObj [("response_code", VNum 3 0)])
  /\ settled (call sample_zone_axios (Zone_getStatus "main") net_down)
       = Rejected (VError (mk_error "AxiosError" "ECONNABORTED"
                             "timeout of 15000ms exceeded"))
  /\ issued (call sample_zone_axios (Zone_getStatus "main") net_down)
       = [mk_request sample_zone_axios GET "main/getStatus" NoPayload]
  /\ baseURL sample_zone_axios = "http://192.168.1.10:80/YamahaExtendedControl/v1".
Proof. repeat split. Qed.

(** C4. setNetworkName with a name of 33 characters rejects with the local
    Error and hands no request to axios; with a name of 32 characters it
    posts [{ name }] to [/setNetworkName] and settles as that exchange
    decides. *)
Theorem setNetworkName_length_check
    (ax : axios_instance) (net : request -> http_outcome) (long short : string) :
  String.length long = 33%nat ->
  String.length short = 32%nat ->
  (issued (call ax (System_setNetworkName (VStr long)) net) = []
   /\ settled (call ax (System_setNetworkName (VStr long)) net)
        = Rejected (VError too_long))
  /\ (issued (call ax (System_setNetworkName (VStr short)) net)
        = [mk_request ax POST "/setNetworkName" (JsonBody (VObj [("name", VStr short)]))]
      /\ settled (call ax (System_setNetworkName (VStr short)) net)
           = promise_chain WholeBody
               (net (mk_request ax POST "/setNetworkName"
                       (JsonBody (VObj [("name", VStr short)]))))).
Proof.
  intros Hlong Hshort. unfold call, local_validation.
  rewrite !length_exceeds_32_string, Hlong, Hshort. simpl. auto.
Qed.

Lemma setNetworkName_length_check_witness :
  (String.length name_33 = 33%nat /\ String.length name_32 = 32%nat)
  /\ issued (call sample_axios (System_setNetworkName (VStr name_33)) net_ok) = []
  /\ settled (call sample_axios (System_setNetworkName (VStr name_32)) net_ok)
       = Resolved (VObj [("response_code", VNum 0 0);
                         ("mac_address_filter", VObj [("filter", VBool false)]);
                         ("network_standby", VStr "auto")]).
Proof.
  split; [split; reflexivity|].
  destruct (setNetworkName_length_check sample_axios net_ok name_33 name_32)
    as [[Hnone _] [_ Hsettled]]; try reflexivity.
  split; [exact Hnone|]. rewrite Hsettled. reflexivity.
Defined.

(** ** The event receiver *)

Lemma lookup_end {A : Type} (l : list A) (x : A) :
  (l ++ [x])%list !! length l = Some x.
Proof. apply list_lookup_middle. reflexivity. Qed.

Lemma alter_end {A : Type} (f : A -> A) (l : list A) (x : A) :
  alter f (length l) (l ++ [x])%list = (l ++ [f x])%list.
Proof.
  induction l as [|y l IH]; simpl; [reflexivity|].
  f_equal. exact IH.
Qed.

(** Symbolic execution: unfold the monad and the primitives, compute, and
    read the socket appended last. *)
Ltac run_step :=
  progress (cbv beta iota zeta delta
    [mbind mret mthrow M_bind M_ret M_throw gets modify log with_sockets with_this
     log_deliveries createSocket the_socket update_socket socket_on socket_bind
     socket_close socket_address assign_server server]).

Ltac run :=
  repeat first [run_step | progress simpl | rewrite alter_end | rewrite lookup_end].

Ltac run_with H :=
  repeat first [run_step | progress simpl | rewrite alter_end | rewrite lookup_end
               | rewrite H].

(** The first call, with no socket yet: a socket is created, wired and set
    binding. *)
Lemma setupEventReceiver_first (ss : list socket) (tr : list effect) (f : facade)
    (ds : list delivery) (port : option Z) :
  f_server f = None ->
  setupEventReceiver port (mk_world ss tr f ds)
  = Normal tt (mk_world (ss ++ [wired_socket (Binding (default 0%Z port))])
                 (tr ++ opening (length ss) port)
                 (set_server (Some (length ss)) f) ds).
Proof.
  intros Hsrv. unfold setupEventReceiver. run_with Hsrv. rewrite <- ?app_assoc. reflexivity.
Qed.

(** A later call, the socket referred to still open: it is closed, the
    reference dropped, and a new socket opened as in the first call. *)
Lemma setupEventReceiver_again (ss : list socket) (tr : list effect) (f : facade)
    (ds : list delivery) (port : option Z) (s : sock_id) (sk : socket) :
  f_server f = Some s ->
  ss !! s = Some sk ->
  s_state sk <> Closed ->
  setupEventReceiver port (mk_world ss tr f ds)
  = Normal tt (mk_world (alter (set_state Closed) s ss
                           ++ [wired_socket (Binding (default 0%Z port))])
                 (tr ++ [Close s; AssignServer None] ++ opening (length ss) port)
                 (set_server (Some (length ss)) f) ds).
Proof.
  intros Hsrv Hsk Hopen. unfold setupEventReceiver.
  assert (Hlen : length (alter (set_state Closed) s ss) = length ss)
    by apply length_alter.
  destruct (s_state sk) eqn:Hst; [| | |congruence];
    run_with Hsrv; rewrite Hsk; run_with Hst; rewrite Hlen, <- ?app_assoc; reflexivity.
Qed.

(** A later call, the socket referred to closed already: [close] throws, and
    nothing after it runs. *)
Lemma setupEventReceiver_closed (ss : list socket) (tr : list effect) (f : facade)
    (ds : list delivery) (port : option Z) (s : sock_id) (sk : socket) :
  f_server f = Some s ->
  ss !! s = Some sk ->
  s_state sk = Closed ->
  setupEventReceiver port (mk_world ss tr f ds)
  = Throw (VError ERR_SOCKET_DGRAM_NOT_RUNNING) (mk_world ss (tr ++ [Close s]) f ds).
Proof.
  intros Hsrv Hsk Hst. unfold setupEventReceiver.
  run_with Hsrv. rewrite Hsk. run_with Hst. reflexivity.
Qed.

(** [close] on a socket that is not closed returns: it logs the call and
    closes the socket. *)
Lemma socket_close_open (w : world) (s : sock_id) (sk : socket) :
  sockets w !! s = Some sk ->
  s_state sk <> Closed ->
  socket_close s w
  = Normal tt (with_sockets (alter (set_state Closed) s (sockets w)) (log (Close s) w)).
Proof.
  destruct w as [ss tr f ds]. simpl. intros Hsk Hopen. unfold socket_close.
  destruct (s_state sk) eqn:Hst; [| | |congruence];
    run; rewrite Hsk; run_with Hst; reflexivity.
Qed.

(** C6. For every call of [setupEventReceiver] while [#server] refers to a
    socket that is open (not closed: bound, binding or unbound): that socket
    is closed first and the reference to it dropped, and only then a new
    socket is created, given its error, message and listening handlers, and
    bound to the given port.  The order is that of the trace.  The [close]
    of an open socket returns, so on these calls there is no close error to
    ignore, and the call itself returns. *)
Theorem setupEventReceiver_replaces_socket
    (w : world) (port : option Z) (s : sock_id) (sk : socket) :
  f_server (this w) = Some s ->
  sockets w !! s = Some sk ->
  s_state sk <> Closed ->
  (exists w0, socket_close s w = Normal tt w0)
  /\ exists w', setupEventReceiver port w = Normal tt w'
    /\ sockets w' = (alter (set_state Closed) s (sockets w)
                       ++ [wired_socket (Binding (default 0%Z port))])%list
    /\ trace w' = (trace w ++ [Close s; AssignServer None]
                     ++ opening (length (sockets w)) port)%list
    /\ f_server (this w') = Some (length (sockets w))
    /\ delivered w' = delivered w.
Proof.
  intros Hsrv Hsk Hst. split.
  - eexists. apply (socket_close_open w s sk Hsk Hst).
  - destruct w as [ss tr f ds]. simpl in *.
    eexists. split; [apply (setupEventReceiver_again _ _ _ _ _ _ _ Hsrv Hsk Hst)|].
    simpl. auto.
Qed.

Lemma setupEventReceiver_replaces_socket_witness :
  exists w', setupEventReceiver (Some 50002%Z) world_listening = Normal tt w'
    /\ sockets w' = [wired_socket Closed; wired_socket (Binding 50002%Z)]
    /\ trace w' = (trace world_listening
                     ++ [Close 0%nat; AssignServer None] ++ opening 1%nat (Some 50002%Z))%list
    /\ f_server (this w') = Some 1%nat.
Proof.
  destruct (setupEventReceiver_replaces_socket world_listening (Some 50002%Z) 0%nat
              (wired_socket (Bound local_50001)) eq_refl eq_refl)
    as (_ & w' & Hrun & Hsockets & Htrace & Hsrv & _); [discriminate|].
  exists w'. repeat split; assumption.
Defined.

(** Outside C6: after a failed bind the error handler has closed the socket
    and [#server] still refers to it; the next [setupEventReceiver] calls
    [close] on the closed socket, [close] throws "Not running", and the
    call ends there: no socket is created and the reference is kept. *)
Example rebind_after_fault :
  env_step utf8_toString json_parse (BindFailed 0%nat EADDRINUSE) world_binding
    = Some (Normal tt world_faulted)
  /\ f_server (this world_faulted) = Some 0%nat
  /\ setupEventReceiver (Some 50002%Z) world_faulted
       = Throw (VError ERR_SOCKET_DGRAM_NOT_RUNNING) (log (Close 0%nat) world_faulted)
  /\ sockets (log (Close 0%nat) world_faulted) = [wired_socket Closed]
  /\ f_server (this (log (Close 0%nat) world_faulted)) = Some 0%nat.
Proof. repeat split. Qed.

(** ** Construction *)

(** [setup] with [this] bound and no socket yet: the fields are stored, the
    receiver is opened on the port, and the six clients are built for the
    address and the port. *)
Lemma setup_first (ss : list socket) (tr : list effect) (f : facade)
    (ds : list delivery) (ip : option string) (port : option Z) :
  f_server f = None ->
  setup ip port (mk_world ss tr f ds)
  = Normal tt (mk_world (ss ++ [wired_socket (Binding (default 0%Z port))])
                 (tr ++ opening (length ss) port)
                 (configured ip port (length ss) (f_listeners f)) ds).
Proof.
  intros Hsrv. unfold setup.
  change ((modify (fun w => with_this (set_ip_field ip (this w)) w);;
           modify (fun w => with_this (set_eventPort_field port (this w)) w);;
           setupEventReceiver port;;
           new_client System;; new_client Zone;; new_client Tuner;;
           new_client NetworkUSB;; new_client CD;; new_client Clock)
            (mk_world ss tr f ds))
    with (match setupEventReceiver port
                  (mk_world ss tr (set_eventPort_field port (set_ip_field ip f)) ds) with
          | Normal _ w' =>
              (new_client System;; new_client Zone;; new_client Tuner;;
               new_client NetworkUSB;; new_client CD;; new_client Clock) w'
          | Throw exn w' => Throw exn w'
          end).
  rewrite setupEventReceiver_first by exact Hsrv.
  reflexivity.
Qed.

(** The constructor body cannot run: without [super()], [this] is unbound,
    and [setup] is not reached. *)
Lemma constructor_without_super (ipAddress : option string) (eventPort : option Z)
    (w : world) :
  constructor ipAddress eventPort w
  = Throw (VError (ReferenceError
      "Must call super constructor in derived class before accessing 'this'")) w.
Proof. reflexivity. Qed.

(** C1. Construction is claimed to succeed for every address and port, with
    the receiver bound and the six clients built.  In the code it never
    does.  Evaluating [class YamahaMusicCast extends EventEmitter] throws a
    ReferenceError: the file binds [axios] and [dgram] only, and
    [EventEmitter] is no global of the platform.  Were the name bound by
    somebody else, the constructor would throw a ReferenceError all the
    same, for reading [this] without a call of [super()].  Either way the
    world is left as it was, without socket and without clients. *)
Theorem new_YamahaMusicCast_throws
    (ipAddress : option string) (eventPort : option Z) (w : world) :
  new_YamahaMusicCast platform_globals ipAddress eventPort w
  = Throw (VError (ReferenceError "EventEmitter is not defined")) w
  /\ forall globals, exists message,
       new_YamahaMusicCast globals ipAddress eventPort w
       = Throw (VError (ReferenceError message)) w.
Proof.
  split; [reflexivity|].
  intros globals. unfold new_YamahaMusicCast, class_declaration, mbind, M_bind.
  destruct (in_scope globals heritage); eexists; reflexivity.
Qed.

(** C10. Construction without an [eventPort] argument is claimed to use
    50001 and to report it through the [eventPort] getter.  In the code the
    default of the parameter is 50001, but it is never used: [new
    YamahaMusicCast(ip)] throws a ReferenceError, at the class declaration
    or, with [EventEmitter] bound, in the constructor body before [setup]
    is reached.  Nothing is stored, opened or built: the [eventPort] of the
    object under construction is still [undefined], no socket exists or was
    asked for, and there is no client to carry the port in its header.  The
    defect is the one of C1. *)
Theorem default_port_never_reported
    (globals : list string) (ip : option string) (ss : list socket)
    (tr : list effect) (ls : list (string * nat)) (ds : list delivery) :
  exists message w',
    new_YamahaMusicCast globals ip None (mk_world ss tr (fresh ls) ds)
      = Throw (VError (ReferenceError message)) w'
    /\ get_eventPort w' = Normal None w'
    /\ f_server (this w') = None
    /\ sockets w' = ss
    /\ trace w' = tr
    /\ (forall k, get_client k (this w') = None)
    /\ (in_scope globals heritage = true ->
        message = "Must call super constructor in derived class before accessing 'this'").
Proof.
  unfold new_YamahaMusicCast, class_declaration, mbind, M_bind.
  destruct (in_scope globals heritage) eqn:Hscope; simpl.
  - rewrite constructor_without_super.
    do 2 eexists. split; [reflexivity|]. repeat split. intros k. destruct k; reflexivity.
  - do 2 eexists. split; [reflexivity|]. repeat split.
    + intros k. destruct k; reflexivity.
    + discriminate.
Qed.

(** ** The accessors *)

(** C9. Assigning [ip] stores the address and nothing else, and assigning
    [eventPort] stores the port and nothing else: the six clients, the
    reference to the socket, the sockets themselves and the other field are
    as before, and no call is made on any socket. *)
Theorem setters_store_one_field (w : world) (ip : option string) (port : option Z) :
  (exists w', set_ip ip w = Normal tt w'
     /\ f_ip (this w') = ip
     /\ f_eventPort (this w') = f_eventPort (this w)
     /\ (forall k, get_client k (this w') = get_client k (this w))
     /\ f_server (this w') = f_server (this w)
     /\ sockets w' = sockets w
     /\ trace w' = trace w)
  /\ (exists w', set_eventPort port w = Normal tt w'
        /\ f_eventPort (this w') = port
        /\ f_ip (this w') = f_ip (this w)
        /\ (forall k, get_client k (this w') = get_client k (this w))
        /\ f_server (this w') = f_server (this w)
        /\ sockets w' = sockets w
        /\ trace w' = trace w).
Proof.
  split; eexists; (split; [reflexivity|]); simpl; repeat split;
    intros k; destruct k; reflexivity.
Qed.

(** After the address and the port of a listening instance are reassigned,
    the system client still calls the old address with the old port in its
    header, and the socket is still bound to the old port. *)
Example stale_configuration :
  exists w1 w2 c,
    set_ip (Some "10.0.0.7") world_listening = Normal tt w1
    /\ set_eventPort (Some 41100%Z) w1 = Normal tt w2
    /\ get_ip w2 = Normal (Some "10.0.0.7") w2
    /\ get_eventPort w2 = Normal (Some 41100%Z) w2
    /\ get_client System (this w2) = Some c
    /\ baseURL (c_axiosInstance c)
         = "http://192.168.1.10:80/YamahaExtendedControl/v1/system"
    /\ lookup_field "X-AppPort" (headers (c_axiosInstance c)) = Some (VNum 50001 0)
    /\ state_of 0%nat w2 = Some (Bound local_50001).
Proof.
  do 3 eexists. repeat split.
Qed.

(** ** The receiver's handlers *)

Lemma alter_is_insert {A : Type} (f : A -> A) (l : list A) (i : nat) (x : A) :
  l !! i = Some x -> alter f i l = <[i := f x]> l.
Proof.
  revert i. induction l as [|y l IH]; intros [|i]; simpl; try discriminate.
  - intros [= ->]. reflexivity.
  - intros Hi. f_equal. apply IH. exact Hi.
Qed.

Lemma insert_twice {A : Type} (l : list A) (i : nat) (x y : A) :
  <[i := y]> (<[i := x]> l) = <[i := y]> l.
Proof.
  revert i. induction l as [|z l IH]; intros [|i]; simpl; try reflexivity.
  f_equal. apply IH.
Qed.

Lemma lookup_insert_same {A : Type} (l : list A) (i : nat) (x y : A) :
  l !! i = Some x -> <[i := y]> l !! i = Some y.
Proof.
  revert i. induction l as [|z l IH]; intros [|i]; simpl; try discriminate.
  - reflexivity.
  - apply IH.
Qed.

(** [emit] with a subscriber: every subscriber is called. *)
Lemma emit_delivers (event : string) (args : list value) (w : world) :
  subscribers event (this w) <> [] ->
  emit event args w
  = Normal true
      (log_deliveries (map (fun l => mk_delivery l event args)
                         (subscribers event (this w))) w).
Proof.
  unfold emit. destruct (subscribers event (this w)); [congruence|reflexivity].
Qed.

(** [emit] of an event other than 'error': normal, and the deliveries are
    those to the subscribers, if any. *)
Lemma emit_other (event : string) (args : list value) (w : world) :
  String.eqb event "error" = false ->
  exists b w', emit event args w = Normal b w'
    /\ delivered w' = (delivered w ++ map (fun l => mk_delivery l event args)
                                        (subscribers event (this w)))%list
    /\ sockets w' = sockets w /\ this w' = this w /\ trace w' = trace w.
Proof.
  intros Hev. unfold emit. rewrite Hev.
  destruct (subscribers event (this w)) as [|l ls]; do 2 eexists;
    (split; [reflexivity|]); simpl; rewrite ?app_nil_r; auto.
Qed.

Section ReceiverProperties.

Variable Buffer_toString : Buffer -> string.
Variable JSON_parse : string -> value + js_error.

Local Abbreviation step := (env_step Buffer_toString JSON_parse).

(** C5. With the receiver's socket bound, a datagram whose text parses as
    JSON makes the facade emit 'message': every subscriber of 'message' is
    called with the sender information and the parsed value, and nothing
    else changes. *)
Theorem datagram_emits_message
    (w : world) (s : sock_id) (local : address_info) (msg : Buffer)
    (rinfo json : value) :
  f_server (this w) = Some s ->
  sockets w !! s = Some (wired_socket (Bound local)) ->
  JSON_parse (Buffer_toString msg) = inl json ->
  exists w',
    step (DatagramArrived s msg rinfo) w = Some (Normal tt w')
    /\ delivered w'
       = (delivered w ++ map (fun l => mk_delivery l "message" [rinfo; json])
                           (subscribers "message" (this w)))%list
    /\ sockets w' = sockets w /\ this w' = this w /\ trace w' = trace w.
Proof.
  intros _ Hsk Hparse.
  destruct (emit_other "message" [rinfo; json] w eq_refl)
    as (b & w' & Hemit & Hdelivered & Hrest).
  exists w'. split; [|split; assumption].
  unfold step, env_step, state_of. rewrite Hsk. simpl.
  unfold socket_emit, the_socket, mbind, M_bind. rewrite Hsk. simpl.
  unfold on_message, parse, mbind, M_bind. rewrite Hparse, Hemit. reflexivity.
Qed.

(** C8. With the receiver's socket bound, a datagram on whose text
    [JSON.parse] throws makes the message handler throw that exception: it
    leaves the handler and the socket's emit uncaught, no event is emitted,
    and the world is as before. *)
Theorem malformed_datagram_throws
    (w : world) (s : sock_id) (local : address_info) (msg : Buffer)
    (rinfo : value) (exn : js_error) :
  f_server (this w) = Some s ->
  sockets w !! s = Some (wired_socket (Bound local)) ->
  JSON_parse (Buffer_toString msg) = inr exn ->
  step (DatagramArrived s msg rinfo) w = Some (Throw (VError exn) w).
Proof.
  intros _ Hsk Hparse.
  unfold step, env_step, state_of. rewrite Hsk. simpl.
  unfold socket_emit, the_socket, mbind, M_bind. rewrite Hsk. simpl.
  unfold on_message, parse, mbind, M_bind. rewrite Hparse. reflexivity.
Qed.

(** C7. A fault of the receiver's socket is claimed to reach the
    subscribers as an 'error' event and to close the socket.  The handler is
    [this.emit('error', error); this.#server.close();], in this order and
    without [try]: when nobody is subscribed for 'error' on the facade,
    [emit] throws the fault instead of returning, the exception leaves the
    handler and the socket's own emit, and [close] is not reached.  Nobody
    has been called, no [close] appears in the trace, and the socket is left
    as the fault left it (unbound after a failed bind, bound after a later
    failure), not closed, with [#server] still referring to it. *)
Theorem unobserved_fault_leaves_socket_unclosed
    (w : world) (s : sock_id) (st : sock_state) (error : js_error) (ev : env_event) :
  f_server (this w) = Some s ->
  sockets w !! s = Some (wired_socket st) ->
  subscribers "error" (this w) = [] ->
  (ev = BindFailed s error /\ exists p, st = Binding p)
  \/ (ev = SocketFailed s error /\ exists a, st = Bound a) ->
  exists w' st',
    step ev w = Some (Throw (VError error) w')
    /\ state_of s w' = Some st'
    /\ st' <> Closed
    /\ st' = match ev with BindFailed _ _ => Unbound | _ => st end
    /\ trace w' = trace w
    /\ delivered w' = delivered w
    /\ this w' = this w.
Proof.
  intros Hsrv Hsk Hsub Hev. destruct w as [ss tr f ds]. simpl in *.
  assert (Hemit : forall w0, this w0 = f ->
            emit "error" [VError error] w0 = Throw (VError error) w0).
  { intros w0 Hw0. unfold emit. rewrite Hw0, Hsub. reflexivity. }
  destruct Hev as [[-> [p ->]] | [-> [a ->]]].
  - exists (mk_world (<[s := wired_socket Unbound]> ss) tr f ds), Unbound.
    split; [|split; [|split; [discriminate|repeat split]]].
    + unfold step, env_step, state_of; simpl; rewrite Hsk; simpl.
      unfold mbind, M_bind, update_socket, modify, with_sockets. simpl.
      rewrite (alter_is_insert _ _ _ _ Hsk).
      unfold socket_emit, the_socket, mbind, M_bind. simpl.
      rewrite (lookup_insert_same _ _ _ _ Hsk). simpl.
      unfold on_error, mbind, M_bind. rewrite Hemit by reflexivity. reflexivity.
    + unfold state_of. simpl. rewrite (lookup_insert_same _ _ _ _ Hsk). reflexivity.
  - exists (mk_world ss tr f ds), (Bound a).
    split; [|split; [|split; [discriminate|repeat split]]].
    + unfold step, env_step, state_of; simpl; rewrite Hsk; simpl.
      unfold socket_emit, the_socket, mbind, M_bind. simpl. rewrite Hsk. simpl.
      unfold on_error, mbind, M_bind. rewrite Hemit by reflexivity. reflexivity.
    + unfold state_of. simpl. rewrite Hsk. reflexivity.
Qed.

End ReceiverProperties.

(** The sample worlds are reached: [setup] on the fresh instance starts the
    bind, and the success of the bind makes the receiver listen. *)
Example sample_worlds_reached :
  setup sample_ip (Some 50001%Z) world_start = Normal tt world_binding
  /\ env_step utf8_toString json_parse (BindSucceeded 0%nat local_50001) world_binding
       = Some (Normal tt world_listening)
  /\ setup sample_ip (Some 50001%Z) (mk_world [] [] (fresh []) [])
       = Normal tt world_unobserved.
Proof. repeat split. Qed.

Lemma datagram_emits_message_witness :
  exists w',
    env_step utf8_toString json_parse (DatagramArrived 0%nat datagram_a1 sender)
      world_listening = Some (Normal tt w')
    /\ delivered w' = [mk_delivery 2 "message" [sender; VObj [("a", VNum 1 0)]]].
Proof.
  destruct (datagram_emits_message utf8_toString json_parse world_listening 0%nat
              local_50001 datagram_a1 sender (VObj [("a", VNum 1 0)])
              eq_refl eq_refl eq_refl) as (w' & Hstep & Hdelivered & _).
  exists w'. split; [exact Hstep|]. rewrite Hdelivered. reflexivity.
Defined.

Lemma malformed_datagram_throws_witness :
  exists exn,
    json_parse (utf8_toString datagram_garbage) = inr exn
    /\ env_step utf8_toString json_parse (DatagramArrived 0%nat datagram_garbage sender)
         world_listening = Some (Throw (VError exn) world_listening).
Proof.
  eexists. split; [reflexivity|].
  apply (malformed_datagram_throws utf8_toString json_parse world_listening 0%nat
           local_50001 datagram_garbage sender); reflexivity.
Defined.

Lemma unobserved_fault_leaves_socket_unclosed_witness :
  subscribers "error" (this world_unobserved) = []
  /\ exists w',
       env_step utf8_toString json_parse (BindFailed 0%nat EADDRINUSE) world_unobserved
         = Some (Throw (VError EADDRINUSE) w')
       /\ state_of 0%nat w' = Some Unbound
       /\ trace w' = opening 0%nat (Some 50001%Z)
       /\ delivered w' = [].
Proof.
  split; [reflexivity|].
  destruct (unobserved_fault_leaves_socket_unclosed utf8_toString json_parse
              world_unobserved 0%nat (Binding 50001%Z) EADDRINUSE
              (BindFailed 0%nat EADDRINUSE) eq_refl eq_refl eq_refl)
    as (w' & st' & Hstep & Hstate & _ & Hst' & Htrace & Hdelivered & _).
  - left. split; [reflexivity|]. exists 50001%Z. reflexivity.
  - exists w'. split; [exact Hstep|]. rewrite Hstate, Hst', Htrace, Hdelivered.
    repeat split.
Defined.

(** With a subscriber for 'error' that returns, the same fault is delivered
    to it and the socket is closed. *)
Example observed_fault_closes_socket :
  env_step utf8_toString json_parse (BindFailed 0%nat EADDRINUSE) world_binding
    = Some (Normal tt world_faulted)
  /\ delivered world_faulted = [mk_delivery 1 "error" [VError EADDRINUSE]]
  /\ sockets world_faulted = [wired_socket Closed]
  /\ trace world_faulted = (trace world_binding ++ [Close 0%nat])%list.
Proof. repeat split. Qed.

(** * Further properties *)

(** ** The endpoint methods *)

(** X2. The promise of a method resolves exactly when its local check
    passes, the exchange completes and the body has [response_code === 0];
    the value is then the body, or the field of the body the method names.
    So a resolved whole body always carries the code 0. *)
Theorem resolution_cases
    (ax : axios_instance) (op : operation) (net : request -> http_outcome)
    (x : value) :
  settled (call ax op net) = Resolved x <->
  local_validation op = None
  /\ exists res, net (request_of ax op) = HttpFulfilled res
                 /\ response_code_zero res = true
                 /\ match op_result op with
                    | WholeBody => x = res
                    | Field key => get_prop res key = inl x
                    end.
Proof.
  unfold call. destruct (local_validation op) as [err|]; simpl.
  - split; [discriminate|]. intros [[=] _].
  - destruct (net (request_of ax op)) as [res|error]; simpl.
    + destruct (response_code_zero res) eqn:Hz.
      * destruct (then_callback_zero (op_result op) res Hz) as (y & -> & Hy).
        split.
        -- intros [= <-]. split; [reflexivity|]. exists res. auto.
        -- intros (_ & res' & [= <-] & _ & Hx).
           destruct (op_result op); congruence.
      * rewrite (then_callback_nonzero _ _ Hz). split.
        -- destruct (get_prop res "response_code"); discriminate.
        -- intros (_ & res' & [= <-] & Hz' & _). congruence.
    + split; [discriminate|]. intros (_ & res & [=] & _).
Qed.

(** X3. A method that resolves a named field does not check that the field
    is there: when the body has the code 0 and lacks the field, the promise
    resolves with [undefined]. *)
Theorem missing_field_resolves_undefined
    (ax : axios_instance) (op : operation) (net : request -> http_outcome)
    (key : string) (fs : list (string * value)) :
  op_result op = Field key ->
  net (request_of ax op) = HttpFulfilled (VObj fs) ->
  response_code_zero (VObj fs) = true ->
  lookup_field key fs = None ->
  settled (call ax op net) = Resolved VUndefined.
Proof.
  intros Hshape Hnet Hz Hmissing.
  assert (Hlocal : local_validation op = None)
    by (destruct op; try reflexivity; discriminate).
  unfold call. rewrite Hlocal. simpl. rewrite Hnet. simpl.
  unfold then_callback. unfold response_code_zero in Hz.
  destruct (get_prop (VObj fs) "response_code"); [|discriminate].
  rewrite Hz, Hshape. simpl. rewrite Hmissing. reflexivity.
Qed.

Lemma missing_field_resolves_undefined_witness :
  settled (call sample_axios System_getNetworkStandby
             (fun _ => HttpFulfilled (VObj [("response_code", VNum 0 0)])))
  = Resolved VUndefined.
Proof.
  apply (missing_field_resolves_undefined sample_axios System_getNetworkStandby
           (fun _ => HttpFulfilled (VObj [("response_code", VNum 0 0)]))
           "network_standby" [("response_code", VNum 0 0)]); reflexivity.
Defined.

(** X4. setNetworkName asks the device exactly when the name has at most 32
    code units: a longer name makes no request, every other name, the empty
    one included, is posted as [{ name }]. *)
Theorem setNetworkName_boundary
    (ax : axios_instance) (net : request -> http_outcome) (name : string) :
  (issued (call ax (System_setNetworkName (VStr name)) net) = []
   <-> (32 < String.length name)%nat)
  /\ (issued (call ax (System_setNetworkName (VStr name)) net)
        = [mk_request ax POST "/setNetworkName" (JsonBody (VObj [("name", VStr name)]))]
      <-> (String.length name <= 32)%nat)
  /\ issued (call ax (System_setNetworkName (VStr EmptyString)) net)
       = [mk_request ax POST "/setNetworkName"
            (JsonBody (VObj [("name", VStr EmptyString)]))].
Proof.
  unfold call, local_validation. rewrite !length_exceeds_32_string.
  change (String.length EmptyString) with 0%nat. change (32 <? 0)%nat with false.
  destruct (32 <? String.length name)%nat eqn:Hlen; simpl.
  - apply Nat.ltb_lt in Hlen. repeat split; try discriminate; try lia; auto.
  - apply Nat.ltb_ge in Hlen. repeat split; try discriminate; try lia; auto.
Qed.

(** X5. Over the whole table, a method posts exactly when it hands data to
    axios: the eight POST methods carry a body, and no GET method does (its
    arguments, if any, go into the query string). *)
Theorem post_exactly_with_body (ax : axios_instance) (op : operation) :
  req_verb (request_of ax op) = POST
  <-> has_body (req_payload (request_of ax op)) = true.
Proof.
  destruct op; simpl; split; (reflexivity || discriminate).
Qed.

(** X6. Every method asks for the path named after itself, under the root
    or, for the zone client, under the zone it is given; the one exception
    is setIPSettings, which asks for [/setIpSettings]. *)
Theorem paths_follow_method_names (ax : axios_instance) (op : operation) :
  req_path (request_of ax op)
  = if String.eqb (op_method op) "setIPSettings" then "/setIpSettings"
    else named_path op.
Proof.
  destruct op; reflexivity.
Qed.

Lemma append_cancel (p a b : string) : p +:+ a = p +:+ b -> a = b.
Proof.
  induction p as [|c p IH]; simpl; [auto|].
  intros [= H]. auto.
Qed.

(** X9. The six classes have six different base URLs for one address, so
    methods of the same name and path in different classes (getPlayInfo of
    the tuner, of the network/USB client and of the CD client) go to
    different URLs. *)
Theorem base_urls_distinct
    (ip : option string) (port port' : option Z) (k k' : client_kind) :
  k <> k' ->
  baseURL (c_axiosInstance (client_setup k ip port))
  <> baseURL (c_axiosInstance (client_setup k' ip port')).
Proof.
  intros Hk Heq. apply Hk. simpl in Heq.
  apply (append_cancel "http://") in Heq.
  apply append_cancel in Heq. apply append_cancel in Heq.
  destruct k, k'; simpl in Heq; (reflexivity || discriminate).
Qed.

Lemma base_urls_distinct_witness :
  req_path (request_of sample_axios Tuner_getPlayInfo)
  = req_path (request_of sample_axios CD_getPlayInfo)
  /\ baseURL (c_axiosInstance (client_setup Tuner sample_ip (Some 50001%Z)))
     <> baseURL (c_axiosInstance (client_setup CD sample_ip (Some 50001%Z))).
Proof.
  split; [reflexivity|]. apply base_urls_distinct. discriminate.
Defined.

(** ** The facade in use *)

(** X15. The first call of [setupEventReceiver], with [#server] unset,
    closes nothing: it creates one socket, registers the three handlers on
    it and starts its bind, on port 0 when the port is [undefined]. *)
Theorem setupEventReceiver_first_call (w : world) (port : option Z) :
  f_server (this w) = None ->
  exists w', setupEventReceiver port w = Normal tt w'
    /\ sockets w' = (sockets w ++ [wired_socket (Binding (default 0%Z port))])%list
    /\ trace w' = (trace w ++ opening (length (sockets w)) port)%list
    /\ f_server (this w') = Some (length (sockets w))
    /\ delivered w' = delivered w.
Proof.
  destruct w as [ss tr f ds]. simpl. intros Hsrv.
  eexists. split; [apply (setupEventReceiver_first _ _ _ _ _ Hsrv)|].
  simpl. auto.
Qed.

Lemma setupEventReceiver_first_call_witness :
  exists w', setupEventReceiver None world_start = Normal tt w'
    /\ sockets w' = [wired_socket (Binding 0%Z)]
    /\ f_server (this w') = Some 0%nat.
Proof.
  destruct (setupEventReceiver_first_call world_start None eq_refl)
    as (w' & Hrun & Hsockets & _ & Hsrv & _).
  exists w'. repeat split; assumption.
Defined.

(** [setup] is [setupEventReceiver] between two assignments and six
    constructions. *)
Lemma setup_unfold (ss : list socket) (tr : list effect) (f : facade)
    (ds : list delivery) (ip : option string) (port : option Z) :
  setup ip port (mk_world ss tr f ds)
  = match setupEventReceiver port
            (mk_world ss tr (set_eventPort_field port (set_ip_field ip f)) ds) with
    | Normal _ w' =>
        (new_client System;; new_client Zone;; new_client Tuner;;
         new_client NetworkUSB;; new_client CD;; new_client Clock) w'
    | Throw exn w' => Throw exn w'
    end.
Proof. reflexivity. Qed.

(** X7. After [setup(ip, eventPort)] on a new instance, a method called
    through the facade makes at most one request, and the request goes to
    the base URL of the method's class at [ip], with the timeout of 15
    seconds, [X-AppName: ERDesigns/1.0] and [X-AppPort: eventPort]. *)
Theorem facade_requests_carry_configuration
    (ss : list socket) (tr : list effect) (ls : list (string * nat))
    (ds : list delivery) (ip : option string) (port : option Z)
    (op : operation) (net : request -> http_outcome) :
  exists w' o,
    setup ip port (mk_world ss tr (fresh ls) ds) = Normal tt w'
    /\ invoke op net w' = Normal o w'
    /\ (length (issued o) <= 1)%nat
    /\ forall req, In req (issued o) ->
         baseURL (req_instance req)
           = "http://" +:+ template ip +:+ ":80/YamahaExtendedControl/v1"
               +:+ subsystem_suffix (op_client op)
         /\ timeout (req_instance req) = 15000%Z
         /\ lookup_field "X-AppName" (headers (req_instance req))
              = Some (VStr "ERDesigns/1.0")
         /\ lookup_field "X-AppPort" (headers (req_instance req))
              = Some (port_value port).
Proof.
  eexists.
  exists (call (c_axiosInstance (client_setup (op_client op) ip port)) op net).
  split; [apply setup_first; reflexivity|].
  split.
  - unfold invoke. simpl. destruct (op_client op); reflexivity.
  - unfold call. destruct (local_validation op); simpl.
    + split; [lia|]. intros req [].
    + split; [lia|]. intros req [<-|[]].
      unfold request_of. destruct (op_request op) as [[v path] pl]. simpl.
      repeat split.
Qed.

(** X8. Reassigning [ip] and [eventPort] does not reach the clients: a
    method called through the facade afterwards makes the call it would
    have made before. *)
Theorem reassignment_keeps_calls
    (w : world) (ip : option string) (port : option Z)
    (op : operation) (net : request -> http_outcome) (o : outcome) :
  invoke op net w = Normal o w ->
  exists w', (set_ip ip;; set_eventPort port) w = Normal tt w'
    /\ invoke op net w' = Normal o w'.
Proof.
  unfold invoke. intros Hcall. eexists. split; [reflexivity|].
  simpl.
  assert (Hsame : get_client (op_client op)
                    (set_eventPort_field port (set_ip_field ip (this w)))
                  = get_client (op_client op) (this w))
    by (destruct (op_client op); reflexivity).
  rewrite Hsame.
  destruct (get_client (op_client op) (this w)); [|discriminate].
  injection Hcall as ->. reflexivity.
Qed.

Lemma reassignment_keeps_calls_witness :
  exists w',
    (set_ip (Some "10.0.0.7");; set_eventPort (Some 41100%Z)) world_listening
      = Normal tt w'
    /\ invoke (Zone_getStatus "main") net_ok w'
       = Normal (call sample_zone_axios (Zone_getStatus "main") net_ok) w'.
Proof.
  apply (reassignment_keeps_calls world_listening (Some "10.0.0.7") (Some 41100%Z)
           (Zone_getStatus "main") net_ok). reflexivity.
Defined.

(** X10. Calling [setup] again while the socket is open reconfigures the
    whole instance: the old socket is closed, a new one is bound to the new
    port, and all six clients are rebuilt for the new address and port. *)
Theorem setup_again_reconfigures
    (w : world) (s : sock_id) (sk : socket) (ip : option string) (port : option Z) :
  f_server (this w) = Some s ->
  sockets w !! s = Some sk ->
  s_state sk <> Closed ->
  exists w', setup ip port w = Normal tt w'
    /\ this w' = configured ip port (length (sockets w)) (f_listeners (this w))
    /\ sockets w' = (alter (set_state Closed) s (sockets w)
                       ++ [wired_socket (Binding (default 0%Z port))])%list.
Proof.
  destruct w as [ss tr f ds]. simpl. intros Hsrv Hsk Hst.
  eexists. split.
  - rewrite setup_unfold.
    rewrite (setupEventReceiver_again _ _ _ _ _ s sk) by assumption.
    reflexivity.
  - split; reflexivity.
Qed.

Lemma setup_again_reconfigures_witness :
  exists w', setup (Some "10.0.0.7") (Some 41100%Z) world_listening = Normal tt w'
    /\ get_client Tuner (this w')
       = Some (client_setup Tuner (Some "10.0.0.7") (Some 41100%Z))
    /\ sockets w' = [wired_socket Closed; wired_socket (Binding 41100%Z)].
Proof.
  destruct (setup_again_reconfigures world_listening 0%nat
              (wired_socket (Bound local_50001)) (Some "10.0.0.7") (Some 41100%Z)
              eq_refl eq_refl) as (w' & Hrun & Hthis & Hsockets); [discriminate|].
  exists w'. split; [exact Hrun|]. rewrite Hthis, Hsockets. split; reflexivity.
Defined.

(** X11. [setup] is not all-or-nothing.  Called while [#server] refers to
    a closed socket, it throws "Not running" out of [close]; by then the
    address and the port are stored, while the clients are the old ones and
    no socket has been created. *)
Theorem setup_failure_is_partial
    (w : world) (s : sock_id) (sk : socket) (ip : option string) (port : option Z) :
  f_server (this w) = Some s ->
  sockets w !! s = Some sk ->
  s_state sk = Closed ->
  exists w', setup ip port w = Throw (VError ERR_SOCKET_DGRAM_NOT_RUNNING) w'
    /\ f_ip (this w') = ip
    /\ f_eventPort (this w') = port
    /\ (forall k, get_client k (this w') = get_client k (this w))
    /\ f_server (this w') = Some s
    /\ sockets w' = sockets w.
Proof.
  destruct w as [ss tr f ds]. simpl. intros Hsrv Hsk Hst.
  eexists. split.
  - rewrite setup_unfold.
    rewrite (setupEventReceiver_closed _ _ _ _ _ s sk) by assumption.
    reflexivity.
  - simpl. repeat split; assumption.
Qed.

Lemma setup_failure_is_partial_witness :
  exists w',
    setup (Some "10.0.0.7") (Some 41100%Z) world_faulted
      = Throw (VError ERR_SOCKET_DGRAM_NOT_RUNNING) w'
    /\ f_ip (this w') = Some "10.0.0.7"
    /\ get_client System (this w')
       = Some (client_setup System sample_ip (Some 50001%Z)).
Proof.
  destruct (setup_failure_is_partial world_faulted 0%nat (wired_socket Closed)
              (Some "10.0.0.7") (Some 41100%Z) eq_refl eq_refl eq_refl)
    as (w' & Hrun & Hip & _ & Hclients & _).
  exists w'. split; [exact Hrun|]. split; [exact Hip|].
  rewrite Hclients. reflexivity.
Defined.

(** ** The receiver over time *)

Lemma lookup_insert_other {A : Type} (l : list A) (i j : nat) (y : A) :
  i <> j -> <[i := y]> l !! j = l !! j.
Proof.
  revert i j. induction l as [|z l IH]; intros [|i] [|j] Hij; simpl;
    try reflexivity; try congruence.
  apply IH. congruence.
Qed.

Section ReceiverOverTime.

Variable Buffer_toString : Buffer -> string.
Variable JSON_parse : string -> value + js_error.

Local Abbreviation step := (env_step Buffer_toString JSON_parse).
Local Abbreviation run := (run_events Buffer_toString JSON_parse).

(** A fault of the receiver's socket with somebody subscribed for 'error',
    as a step between explicit worlds. *)
Lemma fault_step (ss : list socket) (tr : list effect) (f : facade)
    (ds : list delivery) (s : sock_id) (st : sock_state) (error : js_error)
    (ev : env_event) :
  f_server f = Some s ->
  ss !! s = Some (wired_socket st) ->
  subscribers "error" f <> [] ->
  (ev = BindFailed s error /\ exists p, st = Binding p)
  \/ (ev = SocketFailed s error /\ exists a, st = Bound a) ->
  step ev (mk_world ss tr f ds)
  = Some (Normal tt
            (mk_world (<[s := wired_socket Closed]> ss) (tr ++ [Close s]) f
               (ds ++ map (fun l => mk_delivery l "error" [VError error])
                        (subscribers "error" f)))).
Proof.
  intros Hsrv Hsk Hsub Hev.
  destruct Hev as [[-> [p ->]] | [-> [a ->]]];
    unfold env_step, state_of; simpl; rewrite Hsk; simpl.
  - unfold mbind, M_bind, update_socket, modify, with_sockets. simpl.
    rewrite (alter_is_insert _ _ _ _ Hsk).
    unfold socket_emit, the_socket, mbind, M_bind. simpl.
    rewrite (lookup_insert_same _ _ _ _ Hsk). simpl.
    unfold on_error, mbind, M_bind. rewrite emit_delivers by exact Hsub.
    unfold server, log_deliveries. simpl. rewrite Hsrv.
    unfold socket_close, the_socket, mbind, M_bind, modify, log. simpl.
    rewrite (lookup_insert_same _ _ _ _ Hsk). simpl.
    unfold update_socket, modify, with_sockets. simpl.
    rewrite (alter_is_insert _ _ _ _ (lookup_insert_same _ _ _ _ Hsk)).
    rewrite insert_twice. reflexivity.
  - unfold socket_emit, the_socket, mbind, M_bind. simpl. rewrite Hsk. simpl.
    unfold on_error, mbind, M_bind. rewrite emit_delivers by exact Hsub.
    unfold server, log_deliveries. simpl. rewrite Hsrv.
    unfold socket_close, the_socket, mbind, M_bind, modify, log. simpl.
    rewrite Hsk. simpl.
    unfold update_socket, modify, with_sockets. simpl.
    rewrite (alter_is_insert _ _ _ _ Hsk). reflexivity.
Qed.

(** X13. Once the error handler has dealt with a fault, the receiver cannot
    be bound again: [#server] refers to the socket the handler closed, so
    every later [setupEventReceiver], whatever the port, throws "Not
    running" out of [close] and creates no socket. *)
Theorem no_rebind_after_fault
    (w : world) (s : sock_id) (st : sock_state) (error : js_error) (ev : env_event) :
  f_server (this w) = Some s ->
  sockets w !! s = Some (wired_socket st) ->
  subscribers "error" (this w) <> [] ->
  (ev = BindFailed s error /\ exists p, st = Binding p)
  \/ (ev = SocketFailed s error /\ exists a, st = Bound a) ->
  exists w',
    step ev w = Some (Normal tt w')
    /\ forall port, exists w'',
         setupEventReceiver port w' = Throw (VError ERR_SOCKET_DGRAM_NOT_RUNNING) w''
         /\ sockets w'' = sockets w'
         /\ this w'' = this w'.
Proof.
  destruct w as [ss tr f ds]. simpl. intros Hsrv Hsk Hsub Hev.
  eexists. split; [apply (fault_step _ _ _ _ _ _ _ _ Hsrv Hsk Hsub Hev)|].
  intros port. eexists. split.
  - apply (setupEventReceiver_closed _ _ _ _ _ s (wired_socket Closed)).
    + exact Hsrv.
    + apply (lookup_insert_same _ _ _ _ Hsk).
    + reflexivity.
  - split; reflexivity.
Qed.

(** A successful bind of the receiver's socket, as a step between explicit
    worlds. *)
Lemma listening_step (ss : list socket) (tr : list effect) (f : facade)
    (ds : list delivery) (s : sock_id) (p : Z) (local : address_info) :
  f_server f = Some s ->
  ss !! s = Some (wired_socket (Binding p)) ->
  step (BindSucceeded s local) (mk_world ss tr f ds)
  = Some (Normal tt
            (mk_world (<[s := wired_socket (Bound local)]> ss) (tr ++ [Address s]) f
               (ds ++ map (fun l => mk_delivery l "listening" [address_value local])
                        (subscribers "listening" f)))).
Proof.
  intros Hsrv Hsk.
  unfold env_step, state_of. simpl. rewrite Hsk. simpl.
  unfold mbind, M_bind, update_socket, modify, with_sockets. simpl.
  rewrite (alter_is_insert _ _ _ _ Hsk).
  unfold socket_emit, the_socket, mbind, M_bind. simpl.
  rewrite (lookup_insert_same _ _ _ _ Hsk). simpl.
  unfold on_listening, server, mbind, M_bind. simpl. rewrite Hsrv.
  unfold socket_address, the_socket, mbind, M_bind, modify, log. simpl.
  rewrite (lookup_insert_same _ _ _ _ Hsk). simpl.
  unfold mret, M_ret, emit. simpl.
  destruct (subscribers "listening" f) as [|l ls];
    unfold log_deliveries; simpl; rewrite ?app_nil_r; reflexivity.
Qed.

(** X1. When the bind of the receiver's socket ends in success, whatever
    port was asked for, the socket is bound and the facade emits
    'listening' with the local address the socket reports: every subscriber
    of 'listening' is called with that address, its family and its port;
    with nobody subscribed the event passes silently.  The handler asks the
    socket for its address once and changes nothing else. *)
Theorem bind_success_announces_address
    (w : world) (s : sock_id) (p : Z) (local : address_info) :
  f_server (this w) = Some s ->
  sockets w !! s = Some (wired_socket (Binding p)) ->
  exists w',
    step (BindSucceeded s local) w = Some (Normal tt w')
    /\ delivered w'
       = (delivered w
            ++ map (fun l => mk_delivery l "listening"
                               [VObj [("address", VStr (a_address local));
                                      ("family", VStr (a_family local));
                                      ("port", VNum (a_port local) 0)]])
                 (subscribers "listening" (this w)))%list
    /\ state_of s w' = Some (Bound local)
    /\ (subscribers "listening" (this w) = [] -> delivered w' = delivered w)
    /\ trace w' = (trace w ++ [Address s])%list
    /\ this w' = this w.
Proof.
  destruct w as [ss tr f ds]. simpl. intros Hsrv Hsk.
  eexists. split; [apply (listening_step ss tr f ds s p local Hsrv Hsk)|]. simpl.
  split; [reflexivity|]. split.
  - unfold state_of. simpl. rewrite (lookup_insert_same _ _ _ _ Hsk). reflexivity.
  - split; [|split; reflexivity]. intros ->. simpl. apply app_nil_r.
Qed.

End ReceiverOverTime.

Lemma no_rebind_after_fault_witness :
  exists w' w'',
    env_step utf8_toString json_parse (BindFailed 0%nat EADDRINUSE) world_binding
      = Some (Normal tt w')
    /\ setupEventReceiver (Some 50002%Z) w'
       = Throw (VError ERR_SOCKET_DGRAM_NOT_RUNNING) w''
    /\ sockets w'' = [wired_socket Closed].
Proof.
  destruct (no_rebind_after_fault utf8_toString json_parse world_binding 0%nat
              (Binding 50001%Z) EADDRINUSE (BindFailed 0%nat EADDRINUSE)
              eq_refl eq_refl) as (w' & Hstep & Hrebind).
  - discriminate.
  - left. split; [reflexivity|]. exists 50001%Z. reflexivity.
  - destruct (Hrebind (Some 50002%Z)) as (w'' & Hthrow & Hsockets & _).
    exists w', w''. split; [exact Hstep|]. split; [exact Hthrow|].
    rewrite Hsockets.
    assert (Hw' : Some (Normal tt w') = Some (Normal tt world_faulted))
      by (rewrite <- Hstep; reflexivity).
    injection Hw' as ->. reflexivity.
Defined.

Lemma bind_success_announces_address_witness :
  exists w',
    env_step utf8_toString json_parse
      (BindSucceeded 0%nat (mk_address "0.0.0.0" "IPv4" 4464))
      (mk_world [wired_socket (Binding 70000%Z)] []
         (configured sample_ip (Some 70000%Z) 0%nat [("listening", 3%nat)]) [])
      = Some (Normal tt w')
    /\ delivered w'
       = [mk_delivery 3 "listening"
            [VObj [("address", VStr "0.0.0.0"); ("family", VStr "IPv4");
                   ("port", VNum 4464 0)]]].
Proof.
  destruct (bind_success_announces_address utf8_toString json_parse
              (mk_world [wired_socket (Binding 70000%Z)] []
                 (configured sample_ip (Some 70000%Z) 0%nat [("listening", 3%nat)]) [])
              0%nat 70000%Z (mk_address "0.0.0.0" "IPv4" 4464) eq_refl eq_refl)
    as (w' & Hstep & Hdelivered & _).
  exists w'. split; [exact Hstep|]. rewrite Hdelivered. reflexivity.
Defined.

(** ** The invariant of the receiver *)

Lemma receiver_inv_core (w w' : world) :
  sockets w' = sockets w ->
  f_server (this w') = f_server (this w) ->
  receiver_inv w -> receiver_inv w'.
Proof.
  unfold receiver_inv. intros -> ->. auto.
Qed.

(** A change of state of the socket [#server] refers to keeps the
    invariant. *)
Lemma receiver_inv_set_state (w w' : world) (s : sock_id) (st : sock_state) :
  receiver_inv w ->
  f_server (this w) = Some s ->
  sockets w' = alter (set_state st) s (sockets w) ->
  f_server (this w') = Some s ->
  receiver_inv w'.
Proof.
  intros [Hwired Hrange] Hsrv Hsockets Hsrv'. split.
  - intros i sk. rewrite Hsockets, Hsrv'.
    destruct (decide (i = s)) as [->|Hne].
    + rewrite list_lookup_alter_eq.
      intros Heq. apply fmap_Some in Heq as (sk0 & Hsk0 & ->).
      destruct (Hwired s sk0 Hsk0) as (st0 & -> & _).
      exists st. split; [reflexivity|auto].
    + rewrite list_lookup_alter_ne by congruence.
      intros Hsk. destruct (Hwired i sk Hsk) as (st0 & -> & Hopen).
      exists st0. split; [reflexivity|]. intros Hst0.
      rewrite <- Hsrv. auto.
  - intros s0. rewrite Hsrv', Hsockets, length_alter.
    intros [= <-]. apply Hrange. exact Hsrv.
Qed.

(** A new wired socket after sockets that are all closed, with [#server]
    referring to it. *)
Lemma receiver_inv_opened (w : world) (old : list socket) (st : sock_state) :
  (forall i sk, old !! i = Some sk -> sk = wired_socket Closed) ->
  sockets w = (old ++ [wired_socket st])%list ->
  f_server (this w) = Some (length old) ->
  receiver_inv w.
Proof.
  intros Hold Hsockets Hsrv. split.
  - intros i sk. rewrite Hsockets, Hsrv.
    intros Hsk. apply lookup_app_Some in Hsk as [Hsk|[Hlen Hsk]].
    + exists Closed. split; [apply (Hold i sk Hsk)|congruence].
    + destruct (i - length old)%nat as [|n] eqn:Hi; simpl in Hsk; [|discriminate].
      injection Hsk as <-. exists st. split; [reflexivity|].
      intros _. f_equal. lia.
  - intros s. rewrite Hsrv, Hsockets, length_app. simpl. intros [= <-]. lia.
Qed.

Lemma setupEventReceiver_keeps (port : option Z) : keeps (setupEventReceiver port).
Proof.
  intros [ss tr f ds] Hinv. pose proof Hinv as [Hwired Hrange]. simpl in *.
  destruct (f_server f) as [s|] eqn:Hsrv.
  - destruct (lookup_lt_is_Some_2 ss s (Hrange s eq_refl)) as [sk Hsk].
    destruct (Hwired s sk Hsk) as (st & -> & _).
    assert (Hcases : st = Closed \/ st <> Closed)
      by (destruct st; (left; reflexivity) || (right; discriminate)).
    destruct Hcases as [->|Hst].
    + rewrite (setupEventReceiver_closed _ _ _ _ _ s _ Hsrv Hsk eq_refl).
      apply (receiver_inv_core (mk_world ss tr f ds)); [reflexivity|reflexivity|exact Hinv].
    + rewrite (setupEventReceiver_again _ _ _ _ _ s _ Hsrv Hsk Hst). simpl.
      apply (receiver_inv_opened _ (alter (set_state Closed) s ss)
               (Binding (default 0%Z port))); simpl.
      * intros i sk. destruct (decide (i = s)) as [->|Hne].
        -- rewrite list_lookup_alter_eq. intros Heq.
           apply fmap_Some in Heq as (sk0 & Hsk0 & ->).
           rewrite Hsk in Hsk0. injection Hsk0 as <-. reflexivity.
        -- rewrite list_lookup_alter_ne by congruence. intros Hi.
           destruct (Hwired i sk Hi) as (st' & -> & Hopen).
           destruct st'; try reflexivity;
             (assert (Some s = Some i) by (apply Hopen; discriminate); congruence).
      * reflexivity.
      * rewrite length_alter. reflexivity.
  - rewrite (setupEventReceiver_first _ _ _ _ _ Hsrv). simpl.
    apply (receiver_inv_opened _ ss (Binding (default 0%Z port))); simpl.
    + intros i sk Hi. destruct (Hwired i sk Hi) as (st' & -> & Hopen).
      destruct st'; try reflexivity;
        (assert (@None sock_id = Some i) by (apply Hopen; discriminate); discriminate).
    + reflexivity.
    + reflexivity.
Qed.

Lemma keeps_bind {A B : Type} (m : M A) (k : A -> M B) :
  keeps m -> (forall a, keeps (k a)) -> keeps (m ≫= k).
Proof.
  intros Hm Hk w Hinv. specialize (Hm w Hinv).
  unfold mbind, M_bind. destruct (m w) as [a w1|exn w1]; simpl in *.
  - apply Hk. exact Hm.
  - exact Hm.
Qed.

(** A statement that leaves the sockets and [#server] alone keeps the
    invariant. *)
Lemma keeps_core {A : Type} (m : M A) :
  (forall w, sockets (world_of (m w)) = sockets w
             /\ f_server (this (world_of (m w))) = f_server (this w)) ->
  keeps m.
Proof.
  intros Hcore w Hinv. destruct (Hcore w) as [Hsockets Hsrv].
  apply (receiver_inv_core w); assumption.
Qed.

Lemma keeps_emit (event : string) (args : list value) : keeps (emit event args).
Proof.
  apply keeps_core. intros w. unfold emit.
  destruct (subscribers event (this w)); [|split; reflexivity].
  destruct (String.eqb event "error"); [|split; reflexivity].
  destruct args as [|[] ?]; split; reflexivity.
Qed.

Lemma keeps_new_client (k : client_kind) : keeps (new_client k).
Proof.
  apply keeps_core. intros w. split; [reflexivity|]. destruct k; reflexivity.
Qed.

(** Closing the socket [#server] refers to. *)
Lemma keeps_close_server : keeps (s ← server; socket_close s).
Proof.
  intros w Hinv. unfold mbind, M_bind, server.
  destruct (f_server (this w)) as [s|] eqn:Hsrv; [|exact Hinv].
  unfold socket_close, mbind, M_bind, modify, the_socket. simpl.
  destruct (sockets w !! s) as [sk|] eqn:Hsk; simpl.
  - destruct (s_state sk) eqn:Hst; simpl;
      try (apply (receiver_inv_set_state w _ s Closed Hinv Hsrv);
           [reflexivity|exact Hsrv]);
      apply (receiver_inv_core w); (reflexivity || exact Hinv).
  - apply (receiver_inv_core w); (reflexivity || exact Hinv).
Qed.

Lemma keeps_server : keeps server.
Proof.
  intros w Hinv. unfold server. destruct (f_server (this w)); exact Hinv.
Qed.

Lemma keeps_the_socket (s : sock_id) : keeps (the_socket s).
Proof.
  intros w Hinv. unfold the_socket. destruct (sockets w !! s); exact Hinv.
Qed.

Lemma keeps_socket_address (s : sock_id) : keeps (socket_address s).
Proof.
  apply keeps_core. intros w.
  unfold socket_address, mbind, M_bind, modify, the_socket. simpl.
  destruct (sockets w !! s) as [sk|]; simpl; [|split; reflexivity].
  destruct (s_state sk); split; reflexivity.
Qed.

Section Invariant.

Variable Buffer_toString : Buffer -> string.
Variable JSON_parse : string -> value + js_error.

Local Abbreviation step := (env_step Buffer_toString JSON_parse).
Local Abbreviation run := (run_events Buffer_toString JSON_parse).

Lemma keeps_run_handler (h : handler) (ev : socket_event) :
  keeps (run_handler Buffer_toString JSON_parse h ev).
Proof.
  destruct h, ev; simpl; try (apply keeps_core; intros w; split; reflexivity).
  - unfold on_error. apply keeps_bind; [apply keeps_emit|].
    intros _. apply keeps_close_server.
  - unfold on_message. apply keeps_bind.
    + apply keeps_core. intros w. unfold parse.
      destruct (JSON_parse (Buffer_toString msg)); split; reflexivity.
    + intros json. apply keeps_bind; [apply keeps_emit|].
      intros _. apply keeps_core. intros w. split; reflexivity.
  - unfold on_listening. apply keeps_bind; [apply keeps_server|].
    intros s. apply keeps_bind; [apply keeps_socket_address|].
      intros address. apply keeps_bind; [apply keeps_emit|].
      intros _. apply keeps_core. intros w. split; reflexivity.
Qed.

Lemma keeps_run_handlers (hs : list handler) (ev : socket_event) :
  keeps (run_handlers Buffer_toString JSON_parse hs ev).
Proof.
  induction hs as [|h hs IH]; simpl.
  - apply keeps_core. intros w. split; reflexivity.
  - apply keeps_bind; [apply keeps_run_handler|]. intros _. exact IH.
Qed.

Lemma keeps_socket_emit (s : sock_id) (ev : socket_event) :
  keeps (socket_emit Buffer_toString JSON_parse s ev).
Proof.
  unfold socket_emit. apply keeps_bind; [apply keeps_the_socket|].
  intros sk. destruct (handlers_for (event_name ev) sk) as [|h hs] eqn:Hhs.
  - destruct ev; try apply (keeps_run_handlers []).
    apply keeps_core. intros w. split; reflexivity.
  - apply (keeps_run_handlers (h :: hs)).
Qed.

(** An event of a socket that is not closed is an event of the socket
    [#server] refers to. *)
Lemma open_socket_is_server (w : world) (s : sock_id) (st : sock_state) :
  receiver_inv w -> state_of s w = Some st -> st <> Closed ->
  f_server (this w) = Some s.
Proof.
  intros [Hwired _] Hst Hopen. unfold state_of in Hst.
  apply fmap_Some in Hst as (sk & Hsk & ->).
  destruct (Hwired s sk Hsk) as (st' & -> & Hsrv). apply Hsrv. exact Hopen.
Qed.

Lemma env_step_keeps (ev : env_event) (w : world) (r : result unit) :
  receiver_inv w -> step ev w = Some r -> receiver_inv (world_of r).
Proof.
  intros Hinv. unfold env_step.
  destruct ev as [s local|s error|s msg rinfo|s error];
    destruct (state_of s w) as [[| p | a |]|] eqn:Hst; try discriminate.
  - intros [= <-].
    assert (Hsrv : f_server (this w) = Some s)
      by (apply (open_socket_is_server w s (Binding p)); auto; discriminate).
    change (receiver_inv
              (world_of (socket_emit Buffer_toString JSON_parse s SocketListening
                           (with_sockets (alter (set_state (Bound local)) s (sockets w))
                              w)))).
    apply keeps_socket_emit.
    apply (receiver_inv_set_state w _ s (Bound local) Hinv Hsrv);
      [reflexivity|exact Hsrv].
  - intros [= <-].
    assert (Hsrv : f_server (this w) = Some s)
      by (apply (open_socket_is_server w s (Binding p)); auto; discriminate).
    change (receiver_inv
              (world_of (socket_emit Buffer_toString JSON_parse s
                           (SocketError (VError error))
                           (with_sockets (alter (set_state Unbound) s (sockets w)) w)))).
    apply keeps_socket_emit.
    apply (receiver_inv_set_state w _ s Unbound Hinv Hsrv);
      [reflexivity|exact Hsrv].
  - intros [= <-]. apply keeps_socket_emit. exact Hinv.
  - intros [= <-]. apply keeps_socket_emit. exact Hinv.
Qed.

Lemma run_events_keeps (evs : list env_event) (w : world) (r : result unit) :
  receiver_inv w -> run evs w = Some r -> receiver_inv (world_of r).
Proof.
  revert w. induction evs as [|ev evs IH]; intros w Hinv; simpl.
  - intros [= <-]. exact Hinv.
  - destruct (step ev w) as [[[] w1|exn w1]|] eqn:Hstep; [| |discriminate].
    + apply IH. apply (env_step_keeps ev w _ Hinv Hstep).
    + intros [= <-]. apply (env_step_keeps ev w _ Hinv Hstep).
Qed.

(** X12. The sockets of an instance never leak and never pile up handlers.
    From a new instance on, through any calls of [setupEventReceiver] and
    [setup] and any events, however each ends: every socket carries exactly
    the three handlers, every socket other than the one [#server] refers to
    is closed, and [#server] refers to a socket that exists. *)
Theorem receiver_invariant :
  (forall ls ds, receiver_inv (mk_world [] [] (fresh ls) ds))
  /\ (forall port, keeps (setupEventReceiver port))
  /\ (forall ip port, keeps (setup ip port))
  /\ (forall ip, keeps (set_ip ip))
  /\ (forall port, keeps (set_eventPort port))
  /\ (forall evs w r, receiver_inv w -> run evs w = Some r -> receiver_inv (world_of r)).
Proof.
  split; [|split; [|split; [|split; [|split]]]].
  - intros ls ds. split.
    + intros i sk Hsk. simpl in Hsk. discriminate.
    + discriminate.
  - apply setupEventReceiver_keeps.
  - intros ip port. unfold setup.
    apply keeps_bind; [apply keeps_core; intros w; split; reflexivity|]. intros _.
    apply keeps_bind; [apply keeps_core; intros w; split; reflexivity|]. intros _.
    apply keeps_bind; [apply setupEventReceiver_keeps|]. intros _.
    repeat (apply keeps_bind; [apply keeps_new_client|]; intros _).
    apply keeps_new_client.
  - intros ip. apply keeps_core. intros w. split; reflexivity.
  - intros port. apply keeps_core. intros w. split; reflexivity.
  - apply run_events_keeps.
Qed.

End Invariant.

(** The sample run keeps the invariant up to the closed socket of
    [world_faulted]. *)
Lemma receiver_invariant_witness :
  receiver_inv world_start
  /\ receiver_inv world_faulted.
Proof.
  destruct (receiver_invariant utf8_toString json_parse)
    as (Hnew & _ & Hsetup & _ & _ & Hrun).
  assert (Hstart : receiver_inv world_start) by apply Hnew.
  split; [exact Hstart|].
  assert (Hbinding : receiver_inv world_binding)
    by apply (Hsetup sample_ip (Some 50001%Z) world_start Hstart).
  apply (Hrun [BindFailed 0%nat EADDRINUSE] world_binding
           (Normal tt world_faulted) Hbinding).
  reflexivity.
Defined.

(** Under the invariant no two sockets are open at once. *)
Lemma one_open_socket (w : world) (i j : sock_id) (ski skj : socket) :
  receiver_inv w ->
  sockets w !! i = Some ski -> s_state ski <> Closed ->
  sockets w !! j = Some skj -> s_state skj <> Closed ->
  i = j.
Proof.
  intros [Hwired _] Hi Hopeni Hj Hopenj.
  destruct (Hwired i ski Hi) as (sti & -> & Hsrvi).
  destruct (Hwired j skj Hj) as (stj & -> & Hsrvj).
  specialize (Hsrvi Hopeni). specialize (Hsrvj Hopenj). congruence.
Qed.

(** However [setupEventReceiver] ends, [#server] is the only field of the
    instance it may have changed. *)
Lemma setupEventReceiver_frame (port : option Z) (w : world) :
  exists srv, this (world_of (setupEventReceiver port w)) = set_server srv (this w).
Proof.
  destruct w as [ss tr f ds]. simpl.
  assert (Hid : f = set_server (f_server f) f) by (destruct f; reflexivity).
  destruct (f_server f) as [s|] eqn:Hsrv.
  - destruct (ss !! s) as [sk|] eqn:Hsk.
    + destruct (s_state sk) eqn:Hst.
      * rewrite (setupEventReceiver_again _ _ _ _ _ s sk Hsrv Hsk)
          by (rewrite Hst; discriminate).
        eexists. reflexivity.
      * rewrite (setupEventReceiver_again _ _ _ _ _ s sk Hsrv Hsk)
          by (rewrite Hst; discriminate).
        eexists. reflexivity.
      * rewrite (setupEventReceiver_again _ _ _ _ _ s sk Hsrv Hsk)
          by (rewrite Hst; discriminate).
        eexists. reflexivity.
      * rewrite (setupEventReceiver_closed _ _ _ _ _ s sk Hsrv Hsk Hst).
        exists (Some s). exact Hid.
    + exists (Some s). unfold setupEventReceiver.
      run_with Hsrv. rewrite Hsk. simpl. exact Hid.
  - rewrite (setupEventReceiver_first _ _ _ _ _ Hsrv). eexists. reflexivity.
Qed.

(** X16. [setupEventReceiver(port)] called by itself rebinds without
    telling anybody: it does not store the port, so the [eventPort] getter
    and the [X-AppPort] header of the six clients stay what they were,
    whatever port the new socket is bound to and however the call ends. *)
Theorem setupEventReceiver_does_not_store_port (port : option Z) (w : world) :
  f_eventPort (this (world_of (setupEventReceiver port w))) = f_eventPort (this w)
  /\ f_ip (this (world_of (setupEventReceiver port w))) = f_ip (this w)
  /\ (forall k, get_client k (this (world_of (setupEventReceiver port w)))
                = get_client k (this w))
  /\ f_listeners (this (world_of (setupEventReceiver port w))) = f_listeners (this w).
Proof.
  destruct (setupEventReceiver_frame port w) as [srv ->].
  repeat split.
Qed.

(** On the listening instance a rebind to 50002 leaves 50001 in the getter
    and in the header of the system client. *)
Example rebind_not_announced :
  exists w' c,
    setupEventReceiver (Some 50002%Z) world_listening = Normal tt w'
    /\ state_of 1%nat w' = Some (Binding 50002%Z)
    /\ get_eventPort w' = Normal (Some 50001%Z) w'
    /\ get_client System (this w') = Some c
    /\ lookup_field "X-AppPort" (headers (c_axiosInstance c)) = Some (VNum 50001 0).
Proof. do 2 eexists. repeat split. Qed.
